(** * The type-detection engine of the expense bot (bot.py)

    A shallow embedding of [match_keywords], [get_types_data],
    [detect_types] and [refresh_types_data], with the Python objects they
    touch: strings, parsed JSON values, the insertion-ordered dictionary
    [_data_cache], and the two JSON files on disk.

    Strings are sequences of code points below 256 (Latin-1), which is what
    Rocq's [string] holds; [lower] and [split] follow [str.lower] and
    [str.split] on that range. *)

From Stdlib Require Import Ascii String ZArith NArith List Bool Lia.
From stdpp Require Import base decidable option list gmap strings.

Local Open Scope string_scope.
Local Open Scope list_scope.

(** ** Python strings *)

(** [str.lower] on one code point: A-Z, and the upper-case letters of the
    Latin-1 supplement (U+00C0..U+00DE without the multiplication sign
    U+00D7), move up by 32. *)
Definition char_lower (c : ascii) : ascii :=
  let n := N_of_ascii c in
  if ((65 <=? n) && (n <=? 90) ||
      (192 <=? n) && (n <=? 222) && negb (n =? 215))%N
  then ascii_of_N (n + 32) else c.

Fixpoint lower (s : string) : string :=
  match s with
  | EmptyString => EmptyString
  | String c rest => String (char_lower c) (lower rest)
  end.

(** [str.isspace] on one code point: TAB..CR, FS..US, SPACE, NEL, NBSP. *)
Definition isspace (c : ascii) : bool :=
  let n := N_of_ascii c in
  ((9 <=? n) && (n <=? 13) || (28 <=? n) && (n <=? 32) ||
   (n =? 133) || (n =? 160))%N.

(** [str.split()] with no separator: maximal runs of non-space characters,
    in order; [word] is the run being read. *)
Fixpoint split_from (word : string) (s : string) : list string :=
  match s with
  | EmptyString => if String.eqb word "" then [] else [word]
  | String c rest =>
      if isspace c
      then (if String.eqb word "" then [] else [word]) ++ split_from "" rest
      else split_from (word +:+ String c "") rest
  end.

Definition split (s : string) : list string := split_from "" s.

(** ** Insertion-ordered dictionaries with string keys

    A Python [dict] iterates in insertion order, and assigning to a key
    that is present replaces the value where the key already stands. *)

Definition dict (V : Type) : Type := list (string * V).

Fixpoint dict_get {V : Type} (d : dict V) (k : string) : option V :=
  match d with
  | [] => None
  | (k', v) :: rest => if String.eqb k k' then Some v else dict_get rest k
  end.

Fixpoint dict_set {V : Type} (k : string) (v : V) (d : dict V) : dict V :=
  match d with
  | [] => [(k, v)]
  | (k', v') :: rest =>
      if String.eqb k k' then (k', v) :: rest else (k', v') :: dict_set k v rest
  end.

Definition dict_contains {V : Type} (d : dict V) (k : string) : bool :=
  match dict_get d k with Some _ => true | None => false end.

Definition dict_keys {V : Type} (d : dict V) : list string := map fst d.

(** ** Parsed JSON values

    What [json.load] returns: [None], [bool], [int], [str], [list], [dict].
    Numbers are kept as integers. [JObj] holds the dict after parsing, so
    its keys are distinct and [dict_get] finds the one binding of a key. *)

#[warnings="-register-all"]
Inductive json : Type :=
| JNull
| JBool (b : bool)
| JNum (n : Z)
| JStr (s : string)
| JArr (items : list json)
| JObj (fields : list (string * json)).

Definition obj : Type := dict json.

(** Python truthiness. *)
Definition truthy (v : json) : bool :=
  match v with
  | JNull => false
  | JBool b => b
  | JNum n => negb (n =? 0)%Z
  | JStr s => negb (String.eqb s "")
  | JArr items => match items with [] => false | _ => true end
  | JObj fields => match fields with [] => false | _ => true end
  end.

(** ** Exceptions and fallible computations *)

Inductive exn : Type :=
| FileNotFoundError
| JSONDecodeError
| AttributeError
| TypeError
| OtherException.

Definition result (A : Type) : Type := exn + A.

Definition rbind {A B : Type} (r : result A) (k : A -> result B) : result B :=
  match r with
  | inl e => inl e
  | inr a => k a
  end.

Declare Scope result_scope.
Delimit Scope result_scope with result.
Notation "x <~ r ;; k" := (rbind r (fun x => k))
  (at level 100, r at next level, right associativity) : result_scope.
Local Open Scope result_scope.

(** [item.get]: only a dict has the method. *)
Definition as_obj (v : json) : result obj :=
  match v with
  | JObj fields => inr fields
  | _ => inl AttributeError
  end.

(** [d.get(key)] and [d.get(key, default)] on a dict. *)
Definition obj_get (o : obj) (key : string) : json :=
  match dict_get o key with Some v => v | None => JNull end.

Definition obj_get_default (o : obj) (key : string) (default : json) : json :=
  match dict_get o key with Some v => v | None => default end.

(** [v.lower()]: only a [str] has the method. *)
Definition py_lower (v : json) : result string :=
  match v with
  | JStr s => inr (lower s)
  | _ => inl AttributeError
  end.

Fixpoint chars (s : string) : list json :=
  match s with
  | EmptyString => []
  | String c rest => JStr (String c "") :: chars rest
  end.

(** [for x in v]: a list yields its items, a dict its keys, a string its
    characters; nothing else is iterable. *)
Definition py_iter (v : json) : result (list json) :=
  match v with
  | JArr items => inr items
  | JObj fields => inr (map (fun kv => JStr (fst kv)) fields)
  | JStr s => inr (chars s)
  | _ => inl TypeError
  end.

Fixpoint try_map {A B : Type} (f : A -> result B) (l : list A) : result (list B) :=
  match l with
  | [] => inr []
  | a :: rest =>
      b <~ f a ;;
      bs <~ try_map f rest ;;
      inr (b :: bs)
  end.

Fixpoint try_filter {A : Type} (p : A -> result bool) (l : list A) : result (list A) :=
  match l with
  | [] => inr []
  | a :: rest =>
      keep <~ p a ;;
      kept <~ try_filter p rest ;;
      inr (if keep then a :: kept else kept)
  end.

(** ** match_keywords (bot.py, 745-750) *)

Definition match_keywords (description : string) (keywords : list string) : bool :=
  let words := split (lower description) in
  let keywords_set : gset string := list_to_set (map lower keywords) in
  let matches := filter (fun word => word ∈ keywords_set) words in
  bool_decide (0 < length matches).

(** The call sites pass [keywords.get(...)], any JSON value: the generator
    [k.lower() for k in keywords] needs an iterable whose items are [str]. *)
Definition as_str (v : json) : result string :=
  match v with
  | JStr s => inr s
  | _ => inl AttributeError
  end.

Definition call_match_keywords (description : string) (keywords : json) : result bool :=
  ks <~ py_iter keywords ;;
  ks <~ try_map as_str ks ;;
  inr (match_keywords description ks).

(** ** The process state

    The two JSON files, the module-level [_data_cache], and a log of the
    file operations performed, most recent first. *)

Inductive file_state : Type :=
| NoFile                 (* [open] raises FileNotFoundError *)
| BadJson                (* [json.load] raises JSONDecodeError *)
| Content (j : json).    (* [json.load] returns [j] *)

Inductive io_event : Type :=
| OpenKeywords           (* open("keywords.json", 'r') *)
| OpenTypesData          (* open(config.types_data_json, 'r') *)
| WriteTypesData.        (* open(config.types_data_json, 'w') + json.dump *)

Record world : Type := mkWorld {
  keywords_json : file_state;
  types_data_json : file_state;
  _data_cache : dict obj;
  io_log : list io_event
}.

Definition with_cache (c : dict obj) (w : world) : world :=
  mkWorld (keywords_json w) (types_data_json w) c (io_log w).

Definition with_types_data (f : file_state) (w : world) : world :=
  mkWorld (keywords_json w) f (_data_cache w) (io_log w).

Definition logged (e : io_event) (w : world) : world :=
  mkWorld (keywords_json w) (types_data_json w) (_data_cache w) (e :: io_log w).

(** Computations that may raise and that change the process state; the
    state reached when an exception leaves is kept, as in Python. *)
Definition M (A : Type) : Type := world -> result A * world.

Definition ret {A : Type} (a : A) : M A := fun w => (inr a, w).

Definition bind {A B : Type} (m : M A) (k : A -> M B) : M B :=
  fun w =>
    match m w with
    | (inl e, w') => (inl e, w')
    | (inr a, w') => k a w'
    end.

Definition lift {A : Type} (r : result A) : M A := fun w => (r, w).

(** [try: m except <handles>: h] *)
Definition try_except {A : Type} (m : M A) (handles : exn -> bool) (h : exn -> M A) : M A :=
  fun w =>
    match m w with
    | (inl e, w') => if handles e then h e w' else (inl e, w')
    | (inr a, w') => (inr a, w')
    end.

Declare Scope py_scope.
Delimit Scope py_scope with py.
Notation "x <- m ;; k" := (bind m (fun x => k))
  (at level 100, m at next level, right associativity) : py_scope.
Notation "m ;;; k" := (bind m (fun _ => k))
  (at level 100, right associativity) : py_scope.
Local Open Scope py_scope.

Definition read_cache : M (dict obj) := fun w => (inr (_data_cache w), w).

Definition cache_assign (key : string) (item : obj) : M unit :=
  fun w => (inr tt, with_cache (dict_set key item (_data_cache w)) w).

Definition json_load (f : file_state) : result json :=
  match f with
  | NoFile => inl FileNotFoundError
  | BadJson => inl JSONDecodeError
  | Content j => inr j
  end.

(** with open("keywords.json", 'r') as file: json.load(file) *)
Definition load_keywords : M json :=
  fun w => (json_load (keywords_json w), logged OpenKeywords w).

(** with open(config.types_data_json, 'r') as file: json.load(file) *)
Definition load_types_data : M json :=
  fun w => (json_load (types_data_json w), logged OpenTypesData w).

(** with open(config.types_data_json, 'w') as f: json.dump(json_file, f) *)
Definition dump_types_data (json_file : json) : M unit :=
  fun w => (inr tt, logged WriteTypesData (with_types_data (Content json_file) w)).

(** os.path.exists(config.types_data_json) *)
Definition types_data_exists : M bool :=
  fun w => (inr (match types_data_json w with NoFile => false | _ => true end), w).

(** ** get_types_data (bot.py, 727-742) *)

(** [item for item in json_file if item.get('main_type') and item.get('sub_type')] *)
Fixpoint classified_items (json_file : list json) : result (list obj) :=
  match json_file with
  | [] => inr []
  | item :: rest =>
      o <~ as_obj item ;;
      kept <~ classified_items rest ;;
      inr (if truthy (obj_get o "main_type") && truthy (obj_get o "sub_type")
           then o :: kept else kept)
  end.

(** for item in json_file: _data_cache[item.get('desc').lower()] = item *)
Fixpoint cache_items (json_file : list obj) : M unit :=
  match json_file with
  | [] => ret tt
  | item :: rest =>
      key <- lift (py_lower (obj_get item "desc")) ;;
      cache_assign key item ;;;
      cache_items rest
  end.

Definition is_empty {V : Type} (d : dict V) : bool :=
  match d with [] => true | _ => false end.

Definition get_types_data : M unit :=
  cache <- read_cache ;;
  if is_empty cache then
    try_except
      (json_file <- load_types_data ;;
       json_file <- lift (py_iter json_file) ;;
       json_file <- lift (classified_items json_file) ;;
       cache_items json_file)
      (fun _ => true)          (* FileNotFoundError, JSONDecodeError, Exception *)
      (fun _ => ret tt)        (* each handler only logs *)
  else ret tt.

(** ** detect_types (bot.py, 753-786) *)

Definition FUZZY_MATCH_THRESHOLD : Z := 75.

Definition sentinel : json * json := (JStr "", JStr "").

Definition category_of (item : obj) : json * json :=
  (obj_get_default item "main_type" (JStr ""),
   obj_get_default item "sub_type" (JStr "")).

(** The inner try block: [Some] is a [return] from inside it, [None] falls
    through to the cache. Only a missing or unparseable file is handled
    here; any other exception leaves the block. *)
Definition keyword_stage (desc_lower : string) : M (option (json * json)) :=
  try_except
    (keywords <- load_keywords ;;
     keywords <- lift (as_obj keywords) ;;
     food <- lift (call_match_keywords desc_lower
                     (obj_get_default keywords "food" (JArr []))) ;;
     if food then ret (Some (JStr "Food", JStr "Outside Food/Dining/Snacks"))
     else
       groceries <- lift (call_match_keywords desc_lower
                            (obj_get_default keywords "groceries" (JArr []))) ;;
       if groceries then ret (Some (JStr "Household", JStr "Groceries"))
       else ret None)
    (fun e => match e with
              | FileNotFoundError | JSONDecodeError => true
              | _ => false
              end)
    (fun _ => ret None).

Section Classifier.

(** [fuzz.ratio] of the fuzzywuzzy package: an integer score. *)
Variable fuzz_ratio : string -> string -> Z.

(** for cached_desc, item in _data_cache.items():
      if fuzz.ratio(cached_desc, desc_lower) > FUZZY_MATCH_THRESHOLD: return ... *)
Fixpoint fuzzy_scan (desc_lower : string) (entries : dict obj) : option obj :=
  match entries with
  | [] => None
  | (cached_desc, item) :: rest =>
      if (FUZZY_MATCH_THRESHOLD <? fuzz_ratio cached_desc desc_lower)%Z
      then Some item
      else fuzzy_scan desc_lower rest
  end.

(** The body of the outer try block. *)
Definition detect_types_body (desc : string) : M (json * json) :=
  let desc_lower := lower desc in
  hit <- keyword_stage desc_lower ;;
  match hit with
  | Some types => ret types
  | None =>
      get_types_data ;;;
      cache <- read_cache ;;
      match dict_get cache desc_lower with
      | Some item => ret (category_of item)
      | None =>
          match fuzzy_scan desc_lower cache with
          | Some item => ret (category_of item)
          | None => ret sentinel
          end
      end
  end.

(** except Exception: return "", "" *)
Definition detect_types (desc : string) (w : world) : (json * json) * world :=
  match detect_types_body desc w with
  | (inr types, w') => (types, w')
  | (inl _, w') => (sentinel, w')
  end.

(** What the exact and the fuzzy lookup (lines 773-783) return for a
    given cache; a view of [detect_types_body] used in the proofs. *)
Definition cache_lookup (desc_lower : string) (cache : dict obj) : json * json :=
  match dict_get cache desc_lower with
  | Some item => category_of item
  | None =>
      match fuzzy_scan desc_lower cache with
      | Some item => category_of item
      | None => sentinel
      end
  end.

End Classifier.

(** ** refresh_types_data (bot.py, 298-356) *)

(** The rows [get_expense_data] builds: every field but [row_id] is the
    string of a sheet cell, empty when the cell is absent. *)
Module ExpenseItem.
Record t : Type := make {
  row_id : Z;
  date : string;
  desc : string;
  amount : string;
  main_type : string;
  sub_type : string;
  user : string;
  bot_identified : string
}.
End ExpenseItem.

(** The dictionary a caller of [refresh_types_data] receives. *)
Record status_dict : Type := mkStatus {
  status : string;
  message : string
}.

Definition nonempty (s : string) : bool := negb (String.eqb s "").

(** exp.main_type and exp.sub_type and exp.bot_identified != "Yes" *)
Definition human_classified (exp : ExpenseItem.t) : bool :=
  nonempty (ExpenseItem.main_type exp) &&
  nonempty (ExpenseItem.sub_type exp) &&
  negb (String.eqb (ExpenseItem.bot_identified exp) "Yes").

(** {"desc": exp.desc, "main_type": exp.main_type, "sub_type": exp.sub_type} *)
Definition type_entry (exp : ExpenseItem.t) : obj :=
  [("desc", JStr (ExpenseItem.desc exp));
   ("main_type", JStr (ExpenseItem.main_type exp));
   ("sub_type", JStr (ExpenseItem.sub_type exp))].

(** item.get('desc').lower() *)
Definition desc_lower_of (item : json) : result string :=
  o <~ as_obj item ;;
  py_lower (obj_get o "desc").

(** json_file.extend(new_types): only a list has the method. *)
Definition extend (json_file : json) (new_types : list json) : result (list json) :=
  match json_file with
  | JArr items => inr (items ++ new_types)
  | _ => inl AttributeError
  end.

Section Reconciliation.

(** The text an exception formats to, [str(e)]. *)
Variable str_exn : exn -> string.

(** The write to the store and the reload of the cache, for the rows
    [get_expense_data] returned. *)
Definition refresh_store_and_cache (expense_list : list ExpenseItem.t) : M unit :=
  let filtered_list := filter (fun exp => human_classified exp = true) expense_list in
  let new_types := map (fun exp => JObj (type_entry exp)) filtered_list in
  present <- types_data_exists ;;
  json_file <-
    (if present then
       json_file <- load_types_data ;;
       items <- lift (py_iter json_file) ;;
       descs <- lift (try_map desc_lower_of items) ;;
       let existing_descs : gset string := list_to_set descs in
       new_types <- lift (try_filter
                            (fun item => d <~ desc_lower_of item ;;
                                         inr (negb (bool_decide (d ∈ existing_descs))))
                            new_types) ;;
       json_file <- lift (extend json_file new_types) ;;
       dump_types_data (JArr json_file) ;;;
       ret json_file
     else
       dump_types_data (JArr new_types) ;;;
       ret new_types) ;;
  json_file <- lift (classified_items json_file) ;;
  cache_items json_file.

(** [reminders] is the outcome of the messages sent after the refresh
    (lines 328-346): [inr tt], or the exception one of them raised. *)
Definition refresh_types_data_body
    (expense_list : string + list ExpenseItem.t) (reminders : result unit)
    : M status_dict :=
  match expense_list with
  | inl error_text => ret (mkStatus "error" error_text)
  | inr expense_list =>
      refresh_store_and_cache expense_list ;;;
      lift reminders ;;;
      ret (mkStatus "success" "Types data refreshed successfully.")
  end.

Definition refresh_types_data
    (expense_list : string + list ExpenseItem.t) (reminders : result unit)
    (w : world) : status_dict * world :=
  match refresh_types_data_body expense_list reminders w with
  | (inr st, w') => (st, w')
  | (inl e, w') =>
      (mkStatus "error"
         match e with
         | FileNotFoundError => "File not found: " +:+ str_exn e
         | JSONDecodeError => "JSON error: " +:+ str_exn e
         | _ => str_exn e
         end, w')
  end.

End Reconciliation.

(** ** Derived views of the state, used to state the theorems *)

(** A string without a whitespace character. *)
Fixpoint no_space (s : string) : Prop :=
  match s with
  | EmptyString => True
  | String c rest => isspace c = false /\ no_space rest
  end.

(** The cache the loop of [cache_items] leaves, and whether it finished. *)
Fixpoint cache_after (json_file : list obj) (cache : dict obj) : result unit * dict obj :=
  match json_file with
  | [] => (inr tt, cache)
  | item :: rest =>
      match py_lower (obj_get item "desc") with
      | inl e => (inl e, cache)
      | inr key => cache_after rest (dict_set key item cache)
      end
  end.

(** What a load from the store puts into an empty cache. *)
Definition loaded_from (f : file_state) : dict obj :=
  match (j <~ json_load f ;; items <~ py_iter j ;; classified_items items) with
  | inl _ => []
  | inr json_file => snd (cache_after json_file [])
  end.

(** A record that passes the filter of [classified_items]. *)
Definition classified (o : obj) : bool :=
  truthy (obj_get o "main_type") && truthy (obj_get o "sub_type").

(** A record whose [desc] is the string [s]. *)
Definition has_desc (o : obj) (s : string) : Prop := obj_get o "desc" = JStr s.

Definition string_desc (o : obj) : Prop := exists s, has_desc o s.

(** The key a record with a string desc is filed under. *)
Definition desc_key (o : obj) : string :=
  match obj_get o "desc" with
  | JStr s => lower s
  | _ => ""
  end.

(** The store holds the records [stored]; a missing file holds none. *)
Definition stored_records (f : file_state) (stored : list obj) : Prop :=
  (f = NoFile /\ stored = []) \/ f = Content (JArr (map JObj stored)).

(** The rows the reconciliation is to append, in the words of its
    contract: classified by a human, and with a lower-cased description
    that no stored record has. *)
Definition rows_to_append (stored : list obj) (rows : list ExpenseItem.t)
    : list ExpenseItem.t :=
  filter (fun exp => human_classified exp = true /\
                     lower (ExpenseItem.desc exp) ∉ map desc_key stored) rows.

(** A computation under which no key leaves the cache. *)
Definition keeps_keys {A : Type} (m : M A) : Prop :=
  forall (w : world) (k : string),
    dict_contains (_data_cache w) k = true ->
    dict_contains (_data_cache (snd (m w))) k = true.

(** How often the store was opened for reading. *)
Definition is_store_read (e : io_event) : bool :=
  match e with OpenTypesData => true | _ => false end.

Definition store_reads (w : world) : nat :=
  length (List.filter is_store_read (io_log w)).

Definition store_length (f : file_state) : option nat :=
  match f with
  | Content (JArr items) => Some (length items)
  | _ => None
  end.

(** The keyword source lets a description through to the cache: it is
    missing, or not JSON, or a mapping whose food and groceries lists hold
    strings none of which is a word of the description. *)
Definition no_rule_fires (w : world) (desc : string) : Prop :=
  keywords_json w = NoFile \/ keywords_json w = BadJson \/
  exists (keywords : obj) (food groceries : list string),
    keywords_json w = Content (JObj keywords) /\
    obj_get_default keywords "food" (JArr []) = JArr (map JStr food) /\
    obj_get_default keywords "groceries" (JArr []) = JArr (map JStr groceries) /\
    forall word, word ∈ split (lower desc) ->
                 (word ∉ map lower food) /\ (word ∉ map lower groceries).

(** An instance of [fuzz_ratio] to run the classifier with: twice the
    longest common subsequence over the total length, in percent, rounded
    half up; 100 for equal strings and 0 when either is empty. *)
Fixpoint lcs (a : list ascii) : list ascii -> nat :=
  match a with
  | [] => fun _ => 0
  | x :: a' =>
      fix inner (b : list ascii) : nat :=
        match b with
        | [] => 0
        | y :: b' =>
            if Ascii.eqb x y then S (lcs a' b')
            else Nat.max (lcs a' b) (inner b')
        end
  end.

Definition indel_ratio (s1 s2 : string) : Z :=
  if String.eqb s1 s2 then 100
  else
    let total := Z.of_nat (String.length s1 + String.length s2) in
    let common := Z.of_nat (lcs (list_ascii_of_string s1) (list_ascii_of_string s2)) in
    if (String.length s1 =? 0)%nat || (String.length s2 =? 0)%nat then 0
    else ((400 * common + total) / (2 * total))%Z.

(** ** Sample states *)

Definition record (desc main_type sub_type : string) : obj :=
  [("desc", JStr desc); ("main_type", JStr main_type); ("sub_type", JStr sub_type)].

(** A store whose only record has no sub_type, an empty cache, no
    keywords.json. *)
Definition unclassified_store : world :=
  mkWorld NoFile (Content (JArr [JObj (record "Coffee" "Food" "")])) [] [].

(** A store with two spellings of one description, an empty cache. *)
Definition coffee_store : world :=
  mkWorld NoFile
    (Content (JArr (map JObj [record "Coffee" "Food" "Beverages";
                              record "Taxi" "" "Cab";
                              record "COFFEE" "Food" "Outside Food/Dining/Snacks"])))
    [] [].

(** keywords.json as the tests have it, no store, and a cache that files
    "pizza delivery" under another category. *)
Definition test_keywords : obj :=
  [("food", JArr [JStr "pizza"; JStr "coffee"]);
   ("groceries", JArr [JStr "milk"; JStr "bread"])].

Definition keyword_world : world :=
  mkWorld (Content (JObj test_keywords)) NoFile
    [("pizza delivery", record "pizza delivery" "Transport" "Cab");
     ("milk and bread", record "milk and bread" "Transport" "Cab")] [].

(** No keywords.json; a cache with a near miss ahead of the exact key. *)
Definition starbucks_world : world :=
  mkWorld NoFile NoFile
    [("starbucks cofee", record "starbucks cofee" "Shopping" "Gifts");
     ("starbucks coffee", record "Starbucks Coffee" "Food" "Beverages")] [].

(** Scores against "taxi fare": 75, 78 and 95. *)
Definition taxi_world : world :=
  mkWorld BadJson NoFile
    [("taxifee", record "taxifee" "Bills" "Fees");
     ("taxi fare trip", record "Taxi fare trip" "Transport" "Cab");
     ("taxi fares", record "Taxi fares" "Transport" "Taxi")] [].

(** keywords.json holds a JSON list where a mapping is expected. *)
Definition list_keywords_world : world :=
  mkWorld (Content (JArr [JStr "pizza"])) NoFile
    [("pizza", record "Pizza" "Food" "Outside Food/Dining/Snacks")] [].

(** Nothing on disk, nothing cached. *)
Definition empty_world : world := mkWorld NoFile NoFile [] [].

(** A cache with a key the store does not have. *)
Definition stale_cache_world : world :=
  mkWorld NoFile (Content (JArr [JObj (record "Coffee" "Food" "Beverages")]))
    [("taxi", record "Taxi" "Transport" "Cab")] [].

Definition sample_rows : list ExpenseItem.t :=
  [ExpenseItem.make 8 "24/07" "Tea" "20" "Food" "Beverages" "Test" "No";
   ExpenseItem.make 9 "24/07" "COFFEE" "150" "Food" "Beverages" "Test" "No";
   ExpenseItem.make 10 "24/07" "Bus" "30" "Transport" "Bus" "Test" "Yes";
   ExpenseItem.make 11 "24/07" "Rent" "9000" "Household" "" "Test" "No"].

(** [str(e)] for the sample runs. *)
Definition sample_str (e : exn) : string :=
  match e with
  | FileNotFoundError => "[Errno 2] No such file or directory"
  | JSONDecodeError => "Expecting value: line 1 column 1 (char 0)"
  | AttributeError => "object has no attribute"
  | TypeError => "object is not iterable"
  | OtherException => "error"
  end.

(** ** Invariants of the cache *)

(** An entry as the loops of [get_types_data] and [refresh_types_data] file
    it: a classified record under its lower-cased desc. *)
Definition entry_ok (entry : string * obj) : Prop :=
  classified (snd entry) = true /\
  exists s, has_desc (snd entry) s /\ fst entry = lower s.

Definition cache_ok (cache : dict obj) : Prop := Forall entry_ok cache.

(** ** get_expense_data (bot.py, 227-261) and update_google_sheet (644-673)

    The Sheets client is outside the repository: what a request ends in is
    an argument. Cells are the strings the API returns for a range. Both
    functions call [get_creds] before their try block; the embedding starts
    after that call. *)

Definition SHEET_START_ROW : Z := 8.

Inductive api_error : Type :=
| HttpError (text : string)      (* except HttpError as e, with str(e) *)
| OtherError (text : string).    (* except Exception as e, with str(e) *)

(** The two except clauses of both functions. *)
Definition api_error_text (e : api_error) : string :=
  match e with
  | HttpError text => "Google Sheets API Error: " +:+ text
  | OtherError text => "Error! " +:+ text
  end.

(** item[i] if len(item) > i else default *)
Definition cell (item : list string) (i : nat) (default : string) : string :=
  List.nth i item default.

Fixpoint expense_rows (row_id : Z) (values : list (list string)) : list ExpenseItem.t :=
  match values with
  | [] => []
  | item :: rest =>
      ExpenseItem.make row_id (cell item 0 "") (cell item 1 "") (cell item 2 "")
        (cell item 3 "") (cell item 4 "") (cell item 5 "") (cell item 6 "No")
      :: expense_rows (row_id + 1) rest
  end.

(** [fetched] is what the request for the range B8:J200 ended in: an
    exception, or result.get("values", []). *)
Definition get_expense_data (fetched : api_error + list (list string))
    : string + list ExpenseItem.t :=
  match fetched with
  | inl e => inl (api_error_text e)
  | inr values =>
      match values with
      | [] => inr []
      | _ => inr (expense_rows SHEET_START_ROW values)
      end
  end.

(** The row [update_google_sheet] sends, for what [detect_types] returned. *)
Definition sheet_row (date_string description amount user : string)
    (types : json * json) : list json :=
  let (main_type, sub_type) := types in
  let bot_identified := if truthy main_type then "Yes" else "No" in
  [JStr date_string; JStr description; JStr amount; main_type; sub_type;
   JStr user; JStr bot_identified].

Section Sheet.

Variable fuzz_ratio : string -> string -> Z.

(** The response of the Sheets API to an append. *)
Variable response : Type.

(** [build_error] is the exception of build(...), if it raised one;
    [execute] is what the append of a row, and the log line after it, end
    in. [date_string] is today's date, taken between the two. *)
Definition update_google_sheet
    (build_error : option api_error) (execute : list json -> api_error + response)
    (date_string amount description user : string)
    (w : world) : (string + response) * world :=
  match build_error with
  | Some e => (inl (api_error_text e), w)
  | None =>
      let (types, w') := detect_types fuzz_ratio description w in
      let values := sheet_row date_string description amount user types in
      match execute values with
      | inl e => (inl (api_error_text e), w')
      | inr result => (inr result, w')
      end
  end.

End Sheet.

(** ** active_reminders (bot.py, 479-504) *)

Inductive reminder_exn : Type :=
| KeyError (key : string)        (* rem[key] with the key missing *)
| StrAttributeError.             (* exp.main_type with exp a character of a str *)

(** rem[key] *)
Definition subscript (rem : obj) (key : string) : reminder_exn + json :=
  match dict_get rem key with
  | Some v => inr v
  | None => inl (KeyError key)
  end.

(** s == v for a str s and a JSON value v *)
Definition str_eq (s : string) (v : json) : bool :=
  match v with
  | JStr t => String.eqb s t
  | _ => false
  end.

(** The inner loop over valid_expenses: the value of [found]. The log line
    of a match reads rem["desc"]. *)
Fixpoint expense_logged (rem : obj) (valid_expenses : list ExpenseItem.t)
    : reminder_exn + bool :=
  match valid_expenses with
  | [] => inr false
  | exp :: rest =>
      match subscript rem "main_type" with
      | inl e => inl e
      | inr main_type =>
          if str_eq (ExpenseItem.main_type exp) main_type then
            match subscript rem "sub_type" with
            | inl e => inl e
            | inr sub_type =>
                if str_eq (ExpenseItem.sub_type exp) sub_type then
                  match subscript rem "desc" with
                  | inl e => inl e
                  | inr _ => inr true
                  end
                else expense_logged rem rest
            end
          else expense_logged rem rest
      end
  end.

(** The outer loop: filtered_reminders. *)
Fixpoint open_reminders (reminders_list : list obj) (valid_expenses : list ExpenseItem.t)
    : reminder_exn + list obj :=
  match reminders_list with
  | [] => inr []
  | rem :: rest =>
      match expense_logged rem valid_expenses with
      | inl e => inl e
      | inr found =>
          match open_reminders rest valid_expenses with
          | inl e => inl e
          | inr kept => inr (if found then kept else rem :: kept)
          end
      end
  end.

(** [reminders_list] is what [applicable_reminders] returned, [exp_list]
    what [get_expense_data] would return. Iterating an error text gives
    its characters, which have no main_type. *)
Definition active_reminders (reminders_list : list obj)
    (exp_list : string + list ExpenseItem.t) : reminder_exn + list obj :=
  match reminders_list with
  | [] => inr []
  | _ =>
      match exp_list with
      | inl "" => open_reminders reminders_list []
      | inl _ => inl StrAttributeError
      | inr exp_list =>
          let valid_expenses :=
            filter (fun exp => ExpenseItem.main_type exp <> "" /\
                               ExpenseItem.sub_type exp <> "") exp_list in
          open_reminders reminders_list valid_expenses
      end
  end.

(** A reminder is silenced by an expense that carries both types and has
    the reminder's main_type and sub_type. *)
Definition silenced_by (rem : obj) (exp : ExpenseItem.t) : Prop :=
  ExpenseItem.main_type exp <> "" /\ ExpenseItem.sub_type exp <> "" /\
  str_eq (ExpenseItem.main_type exp) (obj_get rem "main_type") = true /\
  str_eq (ExpenseItem.sub_type exp) (obj_get rem "sub_type") = true.

#[global] Instance silenced_by_dec (rem : obj) (exp : ExpenseItem.t) :
  Decision (silenced_by rem exp).
Proof. unfold silenced_by. apply _. Defined.

(** A reminder with the three keys the loops read. *)
Definition reminder_keys (rem : obj) : Prop :=
  dict_contains rem "main_type" = true /\
  dict_contains rem "sub_type" = true /\
  dict_contains rem "desc" = true.

(** ** More of Python's str and int *)

(** sep in s, for a separator of one character *)
Fixpoint contains_char (sep : ascii) (s : string) : bool :=
  match s with
  | EmptyString => false
  | String c rest => Ascii.eqb c sep || contains_char sep rest
  end.

(** s.split(sep), for a separator of one character: the pieces between
    the separators, empty ones included; [word] is the piece being read. *)
Fixpoint split_on_from (sep : ascii) (word : string) (s : string) : list string :=
  match s with
  | EmptyString => [word]
  | String c rest =>
      if Ascii.eqb c sep then word :: split_on_from sep "" rest
      else split_on_from sep (word +:+ String c "") rest
  end.

Definition split_on (sep : ascii) (s : string) : list string := split_on_from sep "" s.

Definition string_rev (s : string) : string :=
  string_of_list_ascii (rev (list_ascii_of_string s)).

Fixpoint lstrip_by (space : ascii -> bool) (s : string) : string :=
  match s with
  | EmptyString => EmptyString
  | String c rest => if space c then lstrip_by space rest else s
  end.

Definition strip_by (space : ascii -> bool) (s : string) : string :=
  string_rev (lstrip_by space (string_rev (lstrip_by space s))).

(** s.strip() *)
Definition strip (s : string) : string := strip_by isspace s.

(** The whitespace [int] skips at both ends of a str: TAB..CR and SPACE,
    and, beyond ASCII, NEL and NBSP. FS..US are not skipped. *)
Definition int_space (c : ascii) : bool :=
  let n := N_of_ascii c in
  ((9 <=? n) && (n <=? 13) || (n =? 32) || (n =? 133) || (n =? 160))%N.

Definition is_digit (c : ascii) : bool :=
  let n := N_of_ascii c in ((48 <=? n) && (n <=? 57))%N.

Definition digit_value (c : ascii) : Z := Z.of_N (N_of_ascii c) - 48.

(** Digits with single underscores between them: the value read so far,
    the number of digits, and whether the last character was a digit. *)
Fixpoint int_digits (s : string) (value : Z) (count : nat) (after_digit : bool)
    : option (Z * nat) :=
  match s with
  | EmptyString => if after_digit then Some (value, count) else None
  | String c rest =>
      if is_digit c then int_digits rest (10 * value + digit_value c) (S count) true
      else if Ascii.eqb c "_" then
        (if after_digit then int_digits rest value count false else None)
      else None
  end.

(** The default limit on the digits of a str that [int] converts. *)
Definition int_max_str_digits : nat := 4300.

(** int(s) for a str, base 10; [None] is ValueError. *)
Definition py_int (s : string) : option Z :=
  let text := strip_by int_space s in
  let (negative, digits) :=
    match text with
    | String "+" rest => (false, rest)
    | String "-" rest => (true, rest)
    | _ => (false, text)
    end in
  match int_digits digits 0 0 false with
  | Some (value, count) =>
      if (count <=? int_max_str_digits)%nat
      then Some (if negative then (- value)%Z else value)
      else None
  | None => None
  end.

(** [int(p) for p in parts]; [None] is ValueError. *)
Fixpoint try_ints (parts : list string) : option (list Z) :=
  match parts with
  | [] => Some []
  | p :: rest =>
      match py_int p with
      | None => None
      | Some n =>
          match try_ints rest with
          | None => None
          | Some ns => Some (n :: ns)
          end
      end
  end.

(** ** applicable_reminders (bot.py, 264-283) *)

Definition REMINDER_DATE_RANGE_SEPARATOR : ascii := "-".

Definition is_separator (v : json) : bool :=
  match v with
  | JStr s => String.eqb s (String REMINDER_DATE_RANGE_SEPARATOR "")
  | _ => false
  end.

(** One turn of the loop, for the day of the month [today]. [None]: an
    exception was raised. [Some None]: the reminder is skipped.
    [Some (Some o)]: the reminder is appended. The separator is looked
    for with [in], which a str, a list and a dict answer; only a str can
    then be split, and the two names take exactly two integers. *)
Definition in_date_range (today : Z) (rem : json) : option (option obj) :=
  match rem with
  | JObj o =>
      match obj_get_default o "date_range" (JStr "") with
      | JStr date_range =>
          if contains_char REMINDER_DATE_RANGE_SEPARATOR date_range then
            match try_ints (split_on REMINDER_DATE_RANGE_SEPARATOR date_range) with
            | Some [_start; _end] =>
                Some (if (_start <=? today)%Z && (today <=? _end)%Z
                      then Some o else None)
            | _ => None
            end
          else Some None
      | JArr items => if existsb is_separator items then None else Some None
      | JObj fields =>
          if dict_contains fields (String REMINDER_DATE_RANGE_SEPARATOR "")
          then None else Some None
      | _ => None
      end
  | _ => None
  end.

(** The loop: every handler returns what has been appended so far. *)
Fixpoint scan_reminders (today : Z) (reminders : list json) : list obj :=
  match reminders with
  | [] => []
  | rem :: rest =>
      match in_date_range today rem with
      | None => []
      | Some None => scan_reminders today rest
      | Some (Some o) => o :: scan_reminders today rest
      end
  end.

(** [reminders_json] is the state of config.reminders_json. *)
Definition applicable_reminders (reminders_json : file_state) (today : Z) : list obj :=
  match json_load reminders_json with
  | inl _ => []
  | inr reminders =>
      match py_iter reminders with
      | inl _ => []
      | inr reminders => scan_reminders today reminders
      end
  end.

(** A reminder whose date_range is two integers joined by one "-". *)
Definition dated (o : obj) (first last : Z) : Prop :=
  exists a b : string,
    obj_get_default o "date_range" (JStr "") = JStr (a +:+ String "-" b) /\
    contains_char "-" a = false /\ contains_char "-" b = false /\
    py_int a = Some first /\ py_int b = Some last.

(** A reminder whose date_range is missing, or a string without "-". *)
Definition undated (o : obj) : Prop :=
  exists s : string,
    obj_get_default o "date_range" (JStr "") = JStr s /\
    contains_char "-" s = false.

(** ** Config._load_user_configuration (bot.py, 89-123), restricted (676-687) *)

(** os.environ *)
Definition environ : Type := string -> option string.

Definition env_get (env : environ) (key default : string) : string :=
  match env key with
  | Some v => v
  | None => default
  end.

(** {"id": ..., "name": ...} *)
Record bot_user : Type := mkUser {
  user_id : Z;
  user_name : string
}.

Record user_config : Type := mkUserConfig {
  users : list bot_user;
  is_local : bool;
  ids_allowed_to_chat_with_bot : list Z
}.

(** [x.strip() for x in s.split(",") if x.strip()] *)
Definition comma_parts (s : string) : list string :=
  map strip (filter (fun x => strip x <> "") (split_on "," s)).

(** [None]: an [int] raised ValueError, which leaves the constructor. *)
Definition load_user_configuration (env : environ) : option user_config :=
  let user_ids_env := env_get env "ALLOWED_USER_IDS" "" in
  let user_names_env := env_get env "ALLOWED_USER_NAMES" "" in
  match
    (if nonempty user_ids_env && nonempty user_names_env then
       match try_ints (comma_parts user_ids_env) with
       | None => None
       | Some user_ids =>
           let user_names := comma_parts user_names_env in
           Some (if (length user_ids =? length user_names)%nat
                 then zip_with mkUser user_ids user_names
                 else [])
       end
     else Some [])
  with
  | None => None
  | Some users =>
      let is_local := String.eqb (lower (env_get env "local" "false")) "true" in
      match
        (if is_local && nonempty (env_get env "LOCAL_TEST_USER_ID" "") then
           match py_int (env_get env "LOCAL_TEST_USER_ID" "") with
           | None => None
           | Some test_user_id =>
               Some [mkUser test_user_id
                       (env_get env "LOCAL_TEST_USER_NAME" "Test User")]
           end
         else Some users)
      with
      | None => None
      | Some users =>
          Some (mkUserConfig users is_local
                  (map user_id (filter (fun u => user_id u <> 0%Z) users)))
      end
  end.

(** The wrapper [restricted] puts around a handler: [None] is the bare
    return for a user that is not allowed. *)
Definition restricted {A : Type} (config : user_config) (func : Z -> A) (id : Z)
    : option A :=
  if bool_decide (id ∈ ids_allowed_to_chat_with_bot config)
  then Some (func id) else None.

(** ** More sample states *)

(** A store that is not JSON, and a cache with one entry. *)
Definition broken_store_world : world :=
  mkWorld NoFile BadJson [("taxi", record "Taxi" "Transport" "Cab")] [].

(** A classified record without desc. *)
Definition nameless_record : obj :=
  [("main_type", JStr "Food"); ("sub_type", JStr "Snacks")].

Definition nameless_store : world :=
  mkWorld NoFile
    (Content (JArr (map JObj [record "Coffee" "Food" "Beverages"; nameless_record;
                              record "Tea" "Food" "Beverages"])))
    [] [].

(** A store with an item that is a string. *)
Definition mixed_store : world :=
  mkWorld NoFile
    (Content (JArr [JObj (record "Coffee" "Food" "Beverages"); JStr "Tea"]))
    [] [].

Definition sample_values : list (list string) :=
  [["24/07"; "Coffee"; "150"; "Food"; "Beverages"];
   ["24/07"; "Bus"; "30"];
   ["24/07"; "Pizza"; "250"; "Food"; "Outside Food/Dining/Snacks"; "Test"; "Yes"]].

Definition bot_values : list (list string) :=
  [["24/07/2025"; "pizza"; "250"; "Food"; "Outside Food/Dining/Snacks"; "Test"; "Yes"];
   ["24/07/2025"; "xyz123"; "10"; ""; ""; "Test"; "No"]].

Definition reminder (desc main_type sub_type date_range : string) : obj :=
  [("desc", JStr desc); ("main_type", JStr main_type); ("sub_type", JStr sub_type);
   ("date_range", JStr date_range)].

Definition sample_reminders : list obj :=
  [reminder "House rent" "Household" "Rent" "1-5";
   reminder "Tea fund" "Food" "Beverages" "1-31"].

Definition sample_environ : environ :=
  fun key =>
    if String.eqb key "ALLOWED_USER_IDS" then Some "101, 0 ,202"
    else if String.eqb key "ALLOWED_USER_NAMES" then Some "Ann,Zero,Bob"
    else None.

Definition uneven_environ : environ :=
  fun key =>
    if String.eqb key "ALLOWED_USER_IDS" then Some "101,202"
    else if String.eqb key "ALLOWED_USER_NAMES" then Some "Ann"
    else None.

Definition local_environ : environ :=
  fun key =>
    if String.eqb key "ALLOWED_USER_IDS" then Some "101,202"
    else if String.eqb key "ALLOWED_USER_NAMES" then Some "Ann,Bob"
    else if String.eqb key "local" then Some "True"
    else if String.eqb key "LOCAL_TEST_USER_ID" then Some "7"
    else None.

(** What [sample_environ] loads to. *)
Definition sample_config : user_config :=
  mkUserConfig [mkUser 101 "Ann"; mkUser 0 "Zero"; mkUser 202 "Bob"] false [101%Z; 202%Z].

(** * Properties *)

Example match_keywords_pizza :
  match_keywords "pizza delivery" ["pizza"; "food"] = true.
Proof. vm_compute. reflexivity. Qed.

Example match_keywords_taxi :
  match_keywords "taxi ride" ["food"; "pizza"] = false.
Proof. vm_compute. reflexivity. Qed.

Example match_keywords_upper :
  match_keywords "PIZZA order" ["pizza"] = true.
Proof. vm_compute. reflexivity. Qed.

Example match_keywords_empty :
  match_keywords "test" [] = false.
Proof. vm_compute. reflexivity. Qed.

Example indel_ratio_starbucks :
  indel_ratio "starbucks coffee" "starbucks cofee" = 97%Z.
Proof. vm_compute. reflexivity. Qed.

(** ** Dictionaries *)

Lemma dict_get_set_eq {V : Type} (k : string) (v : V) (d : dict V) :
  dict_get (dict_set k v d) k = Some v.
Proof.
  induction d as [|[k' v'] d IH]; simpl.
  - by rewrite String.eqb_refl.
  - destruct (String.eqb k k') eqn:E; simpl; rewrite E; [done | apply IH].
Qed.

Lemma dict_get_set_ne {V : Type} (k k0 : string) (v : V) (d : dict V) :
  k ≠ k0 -> dict_get (dict_set k v d) k0 = dict_get d k0.
Proof.
  intros Hne. induction d as [|[k' v'] d IH]; simpl.
  - destruct (String.eqb k0 k) eqn:E; [|done].
    apply String.eqb_eq in E. congruence.
  - destruct (String.eqb k k') eqn:E; simpl.
    + apply String.eqb_eq in E. subst k'.
      destruct (String.eqb k0 k) eqn:E0; [|done].
      apply String.eqb_eq in E0. congruence.
    + by rewrite IH.
Qed.

Lemma dict_contains_set {V : Type} (k k0 : string) (v : V) (d : dict V) :
  dict_contains d k0 = true -> dict_contains (dict_set k v d) k0 = true.
Proof.
  unfold dict_contains. destruct (decide (k = k0)) as [->|Hne].
  - by rewrite dict_get_set_eq.
  - by rewrite dict_get_set_ne.
Qed.

Lemma dict_set_not_empty {V : Type} (k : string) (v : V) (d : dict V) :
  dict_set k v d ≠ [].
Proof. destruct d as [|[k' v'] d]; simpl; [done|]. by destruct (String.eqb k k'). Qed.

Lemma dict_get_elem_of {V : Type} (d : dict V) (k : string) (v : V) :
  dict_get d k = Some v -> (k, v) ∈ d.
Proof.
  induction d as [|[k' v'] d IH]; simpl; [done|].
  destruct (String.eqb k k') eqn:E.
  - apply String.eqb_eq in E. intros [= ->]. subst. apply list_elem_of_here.
  - intros H. apply list_elem_of_further, IH, H.
Qed.

(** ** Lower-casing *)

Lemma char_lower_idempotent (c : ascii) : char_lower (char_lower c) = char_lower c.
Proof. destruct c as [[] [] [] [] [] [] [] []]; vm_compute; reflexivity. Qed.

Lemma lower_idempotent (s : string) : lower (lower s) = lower s.
Proof.
  induction s as [|c s IH]; simpl; [done|].
  by rewrite char_lower_idempotent, IH.
Qed.

Lemma match_keywords_lower (description : string) (keywords : list string) :
  match_keywords (lower description) keywords = match_keywords description keywords.
Proof. unfold match_keywords. by rewrite lower_idempotent. Qed.

(** ** Splitting into words *)

Example split_words :
  split (String "009" "milk  and" +:+ String "160" "bread ") = ["milk"; "and"; "bread"].
Proof. vm_compute. reflexivity. Qed.

Lemma no_space_app (s : string) (c : ascii) :
  no_space s -> isspace c = false -> no_space (s +:+ String c "").
Proof. induction s as [|c' s IH]; simpl; intros Hs Hc; [done|]. split; [tauto|]. apply IH; tauto. Qed.

Lemma split_from_words (word s t : string) :
  no_space word -> t ∈ split_from word s -> t <> "" /\ no_space t.
Proof.
  revert word. induction s as [|c rest IH]; intros word Hword; simpl.
  - destruct (String.eqb word "") eqn:E; intros Ht.
    + by apply elem_of_nil in Ht.
    + apply list_elem_of_singleton in Ht as ->. by apply String.eqb_neq in E.
  - destruct (isspace c) eqn:Hc.
    + intros Ht. apply elem_of_app in Ht as [Ht|Ht]; [|by apply (IH "")].
      destruct (String.eqb word "") eqn:E.
      * by apply elem_of_nil in Ht.
      * apply list_elem_of_singleton in Ht as ->. by apply String.eqb_neq in E.
    + apply IH. by apply no_space_app.
Qed.

(** The words [split] returns are non-empty and free of whitespace. *)
Lemma split_words_no_space (s t : string) :
  t ∈ split s -> t <> "" /\ no_space t.
Proof. by apply split_from_words. Qed.

(** ** Keyword matching *)

Lemma match_keywords_iff (description : string) (keywords : list string) :
  match_keywords description keywords = true <->
  exists word, word ∈ split (lower description) /\ word ∈ map lower keywords.
Proof.
  unfold match_keywords. rewrite bool_decide_eq_true. split.
  - intros Hlen.
    destruct (filter _ _) as [|word rest] eqn:E; [simpl in Hlen; lia|].
    assert (Hin : word ∈ word :: rest) by apply list_elem_of_here.
    rewrite <- E in Hin. apply list_elem_of_filter in Hin as [Hset Hword].
    exists word. split; [done|]. by apply elem_of_list_to_set in Hset.
  - intros (word & Hword & Hkey).
    assert (Hin : word ∈ filter (fun word => word ∈ (list_to_set (map lower keywords) : gset string))
                          (split (lower description))).
    { apply list_elem_of_filter. split; [|done]. by apply elem_of_list_to_set. }
    destruct (filter _ _) as [|x rest]; [by apply elem_of_nil in Hin|simpl; lia].
Qed.

Lemma match_keywords_false (description : string) (keywords : list string) :
  match_keywords description keywords = false <->
  forall word, word ∈ split (lower description) -> word ∉ map lower keywords.
Proof.
  rewrite <- not_true_iff_false, match_keywords_iff. split.
  - intros Hno word Hword Hkey. apply Hno. eauto.
  - intros Hno (word & Hword & Hkey). by apply (Hno word).
Qed.

Lemma try_map_as_str (ks : list string) : try_map as_str (map JStr ks) = inr ks.
Proof. induction ks as [|k ks IH]; simpl; [done|]. by rewrite IH. Qed.

Lemma call_match_keywords_typed (description : string) (ks : list string) :
  call_match_keywords description (JArr (map JStr ks)) = inr (match_keywords description ks).
Proof. unfold call_match_keywords. simpl. by rewrite try_map_as_str. Qed.

(** ** Loading the cache *)

Lemma with_cache_same (w : world) : with_cache (_data_cache w) w = w.
Proof. by destruct w. Qed.

Lemma cache_items_eq (json_file : list obj) (w : world) :
  cache_items json_file w =
  (fst (cache_after json_file (_data_cache w)),
   with_cache (snd (cache_after json_file (_data_cache w))) w).
Proof.
  revert w. induction json_file as [|item rest IH]; intros w; simpl.
  - unfold ret. by rewrite with_cache_same.
  - unfold bind, lift, cache_assign.
    destruct (py_lower (obj_get item "desc")) as [e|key]; simpl.
    + by rewrite with_cache_same.
    + rewrite IH. by destruct w.
Qed.

Lemma get_types_data_eq (w : world) :
  get_types_data w =
  (inr tt,
   if is_empty (_data_cache w)
   then with_cache (loaded_from (types_data_json w)) (logged OpenTypesData w)
   else w).
Proof.
  unfold get_types_data, bind, read_cache.
  destruct (_data_cache w) as [|entry rest] eqn:Hc; simpl; [|done].
  unfold try_except, load_types_data, bind, lift, loaded_from, ret.
  assert (Hw : with_cache [] (logged OpenTypesData w) = logged OpenTypesData w).
  { destruct w; simpl in *. by subst. }
  destruct (json_load (types_data_json w)) as [e|j]; simpl; [by rewrite Hw|].
  destruct (py_iter j) as [e|items]; simpl; [by rewrite Hw|].
  destruct (classified_items items) as [e|json_file]; simpl; [by rewrite Hw|].
  rewrite cache_items_eq. simpl. rewrite Hc.
  destruct (cache_after json_file []) as [[e|[]] c]; simpl; by destruct w.
Qed.

Lemma loaded_cache_logged (e : io_event) (w : world) :
  _data_cache (snd (get_types_data (logged e w))) =
  _data_cache (snd (get_types_data w)).
Proof.
  rewrite !get_types_data_eq. simpl.
  by destruct (is_empty (_data_cache w)).
Qed.

Lemma get_types_data_files (w : world) :
  keywords_json (snd (get_types_data w)) = keywords_json w /\
  types_data_json (snd (get_types_data w)) = types_data_json w.
Proof.
  rewrite get_types_data_eq. simpl.
  by destruct (is_empty (_data_cache w)).
Qed.

(** ** The keyword stage *)

Lemma keyword_stage_world (desc_lower : string) (w : world) :
  snd (keyword_stage desc_lower w) = logged OpenKeywords w.
Proof.
  unfold keyword_stage, try_except, load_keywords, bind, lift, ret.
  destruct (json_load (keywords_json w)) as [[]|j]; simpl; try done.
  destruct (as_obj j) as [[]|keywords]; simpl; try done.
  destruct (call_match_keywords desc_lower (obj_get_default keywords "food" (JArr [])))
    as [[]|[]]; simpl; try done.
  destruct (call_match_keywords desc_lower (obj_get_default keywords "groceries" (JArr [])))
    as [[]|[]]; simpl; done.
Qed.

Lemma keyword_stage_no_source (desc_lower : string) (w : world) :
  keywords_json w = NoFile \/ keywords_json w = BadJson ->
  fst (keyword_stage desc_lower w) = inr None.
Proof.
  unfold keyword_stage, try_except, load_keywords, bind, lift, ret.
  by intros [-> | ->].
Qed.

Lemma keyword_stage_food (desc_lower : string) (w : world)
    (keywords : obj) (food : list string) :
  keywords_json w = Content (JObj keywords) ->
  obj_get_default keywords "food" (JArr []) = JArr (map JStr food) ->
  match_keywords desc_lower food = true ->
  fst (keyword_stage desc_lower w) =
  inr (Some (JStr "Food", JStr "Outside Food/Dining/Snacks")).
Proof.
  intros Hfile Hfood Hhit.
  unfold keyword_stage, try_except, load_keywords, bind, lift, ret.
  rewrite Hfile. simpl. by rewrite Hfood, call_match_keywords_typed, Hhit.
Qed.

Lemma keyword_stage_groceries (desc_lower : string) (w : world)
    (keywords : obj) (food groceries : list string) :
  keywords_json w = Content (JObj keywords) ->
  obj_get_default keywords "food" (JArr []) = JArr (map JStr food) ->
  obj_get_default keywords "groceries" (JArr []) = JArr (map JStr groceries) ->
  match_keywords desc_lower food = false ->
  fst (keyword_stage desc_lower w) =
  if match_keywords desc_lower groceries
  then inr (Some (JStr "Household", JStr "Groceries"))
  else inr None.
Proof.
  intros Hfile Hfood Hgroceries Hmiss.
  unfold keyword_stage, try_except, load_keywords, bind, lift, ret.
  rewrite Hfile. simpl.
  rewrite Hfood, Hgroceries, !call_match_keywords_typed, Hmiss. simpl.
  by destruct (match_keywords desc_lower groceries).
Qed.

Lemma no_rule_fires_falls_through (w : world) (desc : string) :
  no_rule_fires w desc -> fst (keyword_stage (lower desc) w) = inr None.
Proof.
  intros [H|[H|(keywords & food & groceries & Hfile & Hfood & Hgroceries & Hno)]].
  - apply keyword_stage_no_source. by left.
  - apply keyword_stage_no_source. by right.
  - assert (Hf : match_keywords (lower desc) food = false).
    { apply match_keywords_false. intros word Hword. rewrite lower_idempotent in Hword.
      by apply Hno. }
    assert (Hg : match_keywords (lower desc) groceries = false).
    { apply match_keywords_false. intros word Hword. rewrite lower_idempotent in Hword.
      by apply Hno. }
    by rewrite (keyword_stage_groceries _ _ keywords food groceries), Hg.
Qed.

(** ** The cache stage *)

Section ClassifierFacts.

Variable fuzz_ratio : string -> string -> Z.

Lemma detect_types_body_fall_through (desc : string) (w : world) :
  fst (keyword_stage (lower desc) w) = inr None ->
  detect_types_body fuzz_ratio desc w =
  (inr (cache_lookup fuzz_ratio (lower desc) (_data_cache (snd (get_types_data w)))),
   snd (get_types_data (logged OpenKeywords w))).
Proof.
  intros Hkw. unfold detect_types_body, bind.
  pose proof (keyword_stage_world (lower desc) w) as Hw.
  destruct (keyword_stage (lower desc) w) as [r w1]. simpl in *. subst.
  rewrite <- (loaded_cache_logged OpenKeywords w).
  pose proof (get_types_data_eq (logged OpenKeywords w)) as Hg.
  destruct (get_types_data (logged OpenKeywords w)) as [r w2].
  injection Hg as -> Hw2. simpl. unfold read_cache, cache_lookup, ret.
  destruct (dict_get (_data_cache w2) (lower desc)); [done|].
  by destruct (fuzzy_scan fuzz_ratio (lower desc) (_data_cache w2)).
Qed.

Lemma detect_types_fall_through (desc : string) (w : world) :
  fst (keyword_stage (lower desc) w) = inr None ->
  detect_types fuzz_ratio desc w =
  (cache_lookup fuzz_ratio (lower desc) (_data_cache (snd (get_types_data w))),
   snd (get_types_data (logged OpenKeywords w))).
Proof.
  intros Hkw. unfold detect_types.
  by rewrite detect_types_body_fall_through.
Qed.

Lemma detect_types_keyword_hit (desc : string) (w : world) (types : json * json) :
  fst (keyword_stage (lower desc) w) = inr (Some types) ->
  detect_types fuzz_ratio desc w = (types, logged OpenKeywords w).
Proof.
  intros Hkw. unfold detect_types, detect_types_body, bind.
  pose proof (keyword_stage_world (lower desc) w) as Hw.
  destruct (keyword_stage (lower desc) w) as [r w1]. simpl in *. by subst.
Qed.

Lemma fuzzy_scan_first (desc_lower : string) (pre post : dict obj)
    (cached_desc : string) (item : obj) :
  Forall (fun entry => (fuzz_ratio (fst entry) desc_lower <= FUZZY_MATCH_THRESHOLD)%Z) pre ->
  (FUZZY_MATCH_THRESHOLD < fuzz_ratio cached_desc desc_lower)%Z ->
  fuzzy_scan fuzz_ratio desc_lower (pre ++ (cached_desc, item) :: post) = Some item.
Proof.
  intros Hpre Hhit. induction Hpre as [|[k v] pre Hk _ IH]; simpl.
  - by rewrite (proj2 (Z.ltb_lt _ _) Hhit).
  - simpl in Hk. by rewrite (proj2 (Z.ltb_ge _ _) Hk).
Qed.

Lemma fuzzy_scan_none (desc_lower : string) (cache : dict obj) :
  Forall (fun entry => (fuzz_ratio (fst entry) desc_lower <= FUZZY_MATCH_THRESHOLD)%Z) cache ->
  fuzzy_scan fuzz_ratio desc_lower cache = None.
Proof.
  induction 1 as [|[k v] rest Hk _ IH]; simpl; [done|].
  simpl in Hk. by rewrite (proj2 (Z.ltb_ge _ _) Hk).
Qed.

End ClassifierFacts.

(** ** The claims about [match_keywords] and [detect_types] *)

(** C1. When a whitespace-delimited word of the lower-cased description is
    one of the lower-cased food keywords, [detect_types] returns
    ("Food", "Outside Food/Dining/Snacks"); when none is but one is a
    groceries keyword, it returns ("Household", "Groceries"). In both cases
    the only effect is the read of keywords.json: whatever the cache holds,
    it is neither loaded, read nor changed. *)
Theorem C1_keyword_rule_short_circuits
    (fuzz_ratio : string -> string -> Z) (desc : string) (w : world)
    (cache : dict obj) (keywords : obj) (food : list string) :
  keywords_json w = Content (JObj keywords) ->
  obj_get_default keywords "food" (JArr []) = JArr (map JStr food) ->
  let fires (rule : list string) :=
    exists word, word ∈ split (lower desc) /\ word ∈ map lower rule in
  (fires food ->
   detect_types fuzz_ratio desc (with_cache cache w) =
   ((JStr "Food", JStr "Outside Food/Dining/Snacks"),
    logged OpenKeywords (with_cache cache w))) /\
  (forall groceries : list string,
     obj_get_default keywords "groceries" (JArr []) = JArr (map JStr groceries) ->
     ~ fires food -> fires groceries ->
     detect_types fuzz_ratio desc (with_cache cache w) =
     ((JStr "Household", JStr "Groceries"),
      logged OpenKeywords (with_cache cache w))).
Proof.
  intros Hfile Hfood fires. split.
  - intros Hhit. apply detect_types_keyword_hit.
    apply (keyword_stage_food _ _ keywords food); [done..|].
    rewrite match_keywords_lower. by apply match_keywords_iff.
  - intros groceries Hgroceries Hmiss Hhit. apply detect_types_keyword_hit.
    rewrite (keyword_stage_groceries _ _ keywords food groceries); [|done..|].
    + assert (match_keywords (lower desc) groceries = true) as ->; [|done].
      rewrite match_keywords_lower. by apply match_keywords_iff.
    + rewrite match_keywords_lower. apply not_true_iff_false.
      by rewrite match_keywords_iff.
Qed.

(** C2. [match_keywords] holds exactly when the set of whitespace-delimited
    words of the lower-cased description and the set of lower-cased
    keywords have a common element; a keyword that is only part of a
    longer word does not match. *)
Theorem C2_match_keywords_whole_words :
  (forall (description : string) (keywords : list string),
     match_keywords description keywords = true <->
     (list_to_set (split (lower description)) : gset string) ∩
       list_to_set (map lower keywords) ≠ ∅) /\
  (forall (description : string) (keywords : list string),
     match_keywords description keywords = true <->
     exists word, word ∈ split (lower description) /\ word ∈ map lower keywords) /\
  (forall (description : string) (keywords : list string),
     (forall keyword, keyword ∈ keywords -> lower keyword ∉ split (lower description)) ->
     match_keywords description keywords = false) /\
  match_keywords "Pineapple juice" ["apple"] = false /\
  match_keywords "APPLE juice" ["Apple"] = true.
Proof.
  split; [|split; [exact match_keywords_iff|split; [|split; vm_compute; reflexivity]]].
  - intros description keywords. rewrite match_keywords_iff. split.
    + intros (word & Hword & Hkey) Hempty.
      apply (not_elem_of_empty (C := gset string) word). rewrite <- Hempty.
      apply elem_of_intersection. by rewrite !elem_of_list_to_set.
    + intros Hne. apply set_choose_L in Hne as [word Hword].
      apply elem_of_intersection in Hword as [Hword Hkey].
      rewrite elem_of_list_to_set in Hword, Hkey. eauto.
  - intros description keywords Hno. apply match_keywords_false.
    intros word Hword Hkey. apply list_elem_of_fmap in Hkey as (keyword & -> & Hkey).
    by apply (Hno keyword).
Qed.

(** C3. When the keyword stage falls through and the lower-cased
    description is a key of the loaded cache, [detect_types] returns the
    main_type and sub_type of that entry, whatever [fuzz_ratio] says about
    any entry. *)
Theorem C3_exact_hit_wins
    (fuzz_ratio : string -> string -> Z) (desc : string) (w : world) (item : obj) :
  fst (keyword_stage (lower desc) w) = inr None ->
  dict_get (_data_cache (snd (get_types_data w))) (lower desc) = Some item ->
  fst (detect_types fuzz_ratio desc w) = category_of item.
Proof.
  intros Hkw Hhit. rewrite detect_types_fall_through by done.
  simpl. unfold cache_lookup. by rewrite Hhit.
Qed.

(** C4. When the keyword stage falls through and there is no exact hit, the
    fuzzy stage returns the category of the first entry, in iteration
    order, that scores above 75: entries before it score 75 or less, and
    the scores of the entries after it play no part. With no entry above
    75 the result is ("", ""). *)
Theorem C4_fuzzy_first_above_threshold
    (fuzz_ratio : string -> string -> Z) (desc : string) (w : world) :
  fst (keyword_stage (lower desc) w) = inr None ->
  dict_get (_data_cache (snd (get_types_data w))) (lower desc) = None ->
  (forall (pre post : dict obj) (cached_desc : string) (item : obj),
     _data_cache (snd (get_types_data w)) = pre ++ (cached_desc, item) :: post ->
     Forall (fun entry => (fuzz_ratio (fst entry) (lower desc) <= 75)%Z) pre ->
     (75 < fuzz_ratio cached_desc (lower desc))%Z ->
     fst (detect_types fuzz_ratio desc w) = category_of item) /\
  (Forall (fun entry => (fuzz_ratio (fst entry) (lower desc) <= 75)%Z)
          (_data_cache (snd (get_types_data w))) ->
   fst (detect_types fuzz_ratio desc w) = sentinel).
Proof.
  intros Hkw Hmiss. rewrite detect_types_fall_through by done.
  simpl. unfold cache_lookup. rewrite Hmiss. split.
  - intros pre post cached_desc item -> Hpre Hhit.
    by rewrite (fuzzy_scan_first fuzz_ratio _ pre post cached_desc item).
  - intros Hnone. by rewrite fuzzy_scan_none.
Qed.

(** C5. [detect_types] always returns a pair: an exception raised anywhere
    in its body becomes ("", ""), and so does a run in which the keyword
    stage falls through and the loaded cache is empty or has neither the
    lower-cased description as a key nor an entry scoring above 75. *)
Theorem C5_detect_types_total
    (fuzz_ratio : string -> string -> Z) (desc : string) (w : world) :
  (exists types w', detect_types fuzz_ratio desc w = (types, w')) /\
  (forall e, fst (detect_types_body fuzz_ratio desc w) = inl e ->
             fst (detect_types fuzz_ratio desc w) = sentinel) /\
  (fst (keyword_stage (lower desc) w) = inr None ->
   _data_cache (snd (get_types_data w)) = [] ->
   fst (detect_types fuzz_ratio desc w) = sentinel) /\
  (fst (keyword_stage (lower desc) w) = inr None ->
   dict_get (_data_cache (snd (get_types_data w))) (lower desc) = None ->
   Forall (fun entry => (fuzz_ratio (fst entry) (lower desc) <= 75)%Z)
          (_data_cache (snd (get_types_data w))) ->
   fst (detect_types fuzz_ratio desc w) = sentinel).
Proof.
  split; [|split; [|split]].
  - destruct (detect_types fuzz_ratio desc w) as [types w'] eqn:E. eauto.
  - intros e He. unfold detect_types.
    destruct (detect_types_body fuzz_ratio desc w) as [[e'|types] w']; simpl in *; [done|].
    discriminate.
  - intros Hkw Hempty. rewrite detect_types_fall_through by done.
    simpl. by rewrite Hempty.
  - intros Hkw Hmiss Hlow. rewrite detect_types_fall_through by done.
    simpl. unfold cache_lookup. by rewrite Hmiss, fuzzy_scan_none.
Qed.

(** ** Filling the cache from a list of records *)

Lemma has_desc_key (o : obj) (s : string) :
  has_desc o s -> py_lower (obj_get o "desc") = inr (lower s).
Proof. unfold has_desc. by intros ->. Qed.

Lemma has_desc_unique (o : obj) (s s' : string) :
  has_desc o s -> has_desc o s' -> s = s'.
Proof. unfold has_desc. intros -> [= ->]. done. Qed.

Lemma classified_items_objs (records : list obj) :
  classified_items (map JObj records) =
  inr (filter (fun o => classified o = true) records).
Proof.
  induction records as [|o records IH]; simpl; [done|].
  rewrite IH. simpl. fold (classified o).
  destruct (classified o) eqn:E.
  - by rewrite filter_cons_True.
  - rewrite filter_cons_False; [done|]. by rewrite E.
Qed.

Lemma dict_set_elem_of {V : Type} (k k0 : string) (v v0 : V) (d : dict V) :
  (k0, v0) ∈ dict_set k v d -> (k0, v0) ∈ d \/ (k0 = k /\ v0 = v).
Proof.
  induction d as [|[k' v'] d IH]; simpl.
  - intros H. apply list_elem_of_singleton in H as [= -> ->]. by right.
  - destruct (String.eqb k k') eqn:E.
    + apply String.eqb_eq in E. subst k'.
      intros H. apply elem_of_cons in H as [[= -> ->]|H]; [by right|].
      left. by apply list_elem_of_further.
    + intros H. apply elem_of_cons in H as [[= -> ->]|H].
      * left. apply list_elem_of_here.
      * destruct (IH H) as [H'|H']; [|by right].
        left. by apply list_elem_of_further.
Qed.

Lemma cache_after_keeps_keys (json_file : list obj) (cache : dict obj) (k : string) :
  dict_contains cache k = true ->
  dict_contains (snd (cache_after json_file cache)) k = true.
Proof.
  revert cache. induction json_file as [|item rest IH]; intros cache Hk; simpl; [done|].
  destruct (py_lower (obj_get item "desc")) as [e|key]; simpl; [done|].
  by apply IH, dict_contains_set.
Qed.

Lemma cache_after_finishes (json_file : list obj) (cache : dict obj) :
  Forall string_desc json_file -> fst (cache_after json_file cache) = inr tt.
Proof.
  intros Hall. revert cache.
  induction Hall as [|item rest [s Hs] _ IH]; intros cache; simpl; [done|].
  rewrite (has_desc_key _ _ Hs). apply IH.
Qed.

Lemma cache_after_app (pre rest : list obj) (cache : dict obj) :
  Forall string_desc pre ->
  cache_after (pre ++ rest) cache = cache_after rest (snd (cache_after pre cache)).
Proof.
  intros Hall. revert cache.
  induction Hall as [|item pre [s Hs] _ IH]; intros cache; simpl; [done|].
  rewrite (has_desc_key _ _ Hs). apply IH.
Qed.

Lemma cache_after_elem_of (json_file : list obj) (cache : dict obj) (k : string) (o : obj) :
  (k, o) ∈ snd (cache_after json_file cache) ->
  (k, o) ∈ cache \/ (o ∈ json_file /\ exists s, has_desc o s /\ k = lower s).
Proof.
  revert cache. induction json_file as [|item rest IH]; intros cache; simpl; [by left|].
  destruct (obj_get item "desc") as [| | |s| |] eqn:Hd; simpl; try by left.
  intros H. destruct (IH _ H) as [H'|(Hin & s' & Hs' & ->)].
  - apply dict_set_elem_of in H' as [H'|[-> ->]]; [by left|].
    right. split; [apply list_elem_of_here|]. by exists s.
  - right. split; [by apply list_elem_of_further|]. by exists s'.
Qed.

Lemma cache_after_contains (json_file : list obj) (cache : dict obj) (o : obj) (s : string) :
  Forall string_desc json_file -> o ∈ json_file -> has_desc o s ->
  dict_contains (snd (cache_after json_file cache)) (lower s) = true.
Proof.
  intros Hall. revert cache.
  induction Hall as [|item rest [s' Hs'] _ IH]; intros cache Hin Hs.
  - by apply elem_of_nil in Hin.
  - simpl. rewrite (has_desc_key _ _ Hs'). apply elem_of_cons in Hin as [->|Hin].
    + rewrite (has_desc_unique _ _ _ Hs Hs').
      apply cache_after_keeps_keys. unfold dict_contains. by rewrite dict_get_set_eq.
    + by apply IH.
Qed.

Lemma cache_after_other_keys (json_file : list obj) (cache : dict obj) (k : string) :
  Forall (fun o => forall s, has_desc o s -> lower s ≠ k) json_file ->
  dict_get (snd (cache_after json_file cache)) k = dict_get cache k.
Proof.
  intros Hall. revert cache.
  induction Hall as [|item rest Hitem _ IH]; intros cache; simpl; [done|].
  destruct (obj_get item "desc") as [| | |s| |] eqn:Hd; simpl; try done.
  rewrite IH. apply dict_get_set_ne. by apply Hitem.
Qed.

Lemma cache_after_last_wins (pre post : list obj) (cache : dict obj) (o : obj) (s : string) :
  Forall string_desc pre -> has_desc o s ->
  Forall (fun o' => forall s', has_desc o' s' -> lower s' ≠ lower s) post ->
  dict_get (snd (cache_after (pre ++ o :: post) cache)) (lower s) = Some o.
Proof.
  intros Hpre Hs Hpost. rewrite cache_after_app by done. simpl.
  rewrite (has_desc_key _ _ Hs), cache_after_other_keys by done.
  apply dict_get_set_eq.
Qed.

(** ** The claims about [get_types_data] *)

(** C6, as stated, fails: after a load that leaves the cache empty (here
    the only record of the store has no sub_type) a second call opens the
    store again. *)
Lemma C6_second_call_reads_again :
  let w1 := snd (get_types_data unclassified_store) in
  let w2 := snd (get_types_data w1) in
  ~ (_data_cache w2 = _data_cache w1 /\ store_reads w2 = store_reads w1).
Proof. vm_compute. intros [_ H]. discriminate H. Qed.

(** C6, amended. Two calls of [get_types_data] leave the cache of one call.
    When the first call leaves the cache non-empty, the second changes
    nothing at all and performs no file operation; when the first call
    leaves it empty, the second opens the store once more. *)
Theorem C6_load_idempotent_on_cache (w : world) :
  let w1 := snd (get_types_data w) in
  let w2 := snd (get_types_data w1) in
  _data_cache w2 = _data_cache w1 /\
  (_data_cache w1 <> [] -> w2 = w1) /\
  (_data_cache w1 = [] -> store_reads w2 = S (store_reads w1)).
Proof.
  simpl. rewrite (get_types_data_eq w). simpl.
  destruct (_data_cache w) as [|entry rest] eqn:Hc; simpl.
  - rewrite get_types_data_eq. simpl.
    destruct (loaded_from (types_data_json w)) as [|entry rest] eqn:Hl; simpl.
    + by repeat split.
    + by repeat split.
  - rewrite get_types_data_eq, Hc. simpl. rewrite Hc. by repeat split.
Qed.

(** C7. A load into an empty cache. With no store file, or one that is not
    JSON, the call returns normally and the cache stays empty. With a store
    that is a list of records, the classified ones carrying a string desc:
    every cache entry is a classified record of the store under its
    lower-cased desc, so a record without main_type or sub_type is nowhere
    in the cache; every classified record has its lower-cased desc as a
    key; and a key maps to the last classified record of the store with
    that lower-cased desc. *)
Theorem C7_load_from_store (w : world) :
  _data_cache w = [] ->
  let cache := _data_cache (snd (get_types_data w)) in
  fst (get_types_data w) = inr tt /\
  (types_data_json w = NoFile \/ types_data_json w = BadJson -> cache = []) /\
  (forall records : list obj,
     types_data_json w = Content (JArr (map JObj records)) ->
     Forall (fun o => classified o = true -> string_desc o) records ->
     (forall k o, (k, o) ∈ cache ->
        o ∈ records /\ classified o = true /\ exists s, has_desc o s /\ k = lower s) /\
     (forall k o, o ∈ records -> classified o = false -> (k, o) ∉ cache) /\
     (forall o s, o ∈ records -> classified o = true -> has_desc o s ->
        dict_contains cache (lower s) = true) /\
     (forall pre post o s,
        records = pre ++ o :: post -> classified o = true -> has_desc o s ->
        Forall (fun o' => classified o' = true ->
                          forall s', has_desc o' s' -> lower s' <> lower s) post ->
        dict_get cache (lower s) = Some o)).
Proof.
  intros Hempty. simpl. rewrite get_types_data_eq, Hempty. simpl.
  split; [done|]. split.
  { by intros [-> | ->]. }
  intros records Hstore Hdesc. rewrite Hstore. unfold loaded_from. simpl.
  rewrite classified_items_objs.
  set (kept := filter (fun o => classified o = true) records).
  assert (Hkept : Forall string_desc kept).
  { apply Forall_forall. intros o Ho. apply list_elem_of_filter in Ho as [Hc Ho].
    rewrite Forall_forall in Hdesc. by apply Hdesc. }
  assert (Honly : forall k o, (k, o) ∈ snd (cache_after kept []) ->
            o ∈ records /\ classified o = true /\ exists s, has_desc o s /\ k = lower s).
  { intros k o Hin. apply cache_after_elem_of in Hin as [Hin|[Hin Hs]].
    - by apply elem_of_nil in Hin.
    - by apply list_elem_of_filter in Hin as [Hc Ho]. }
  split; [exact Honly|]. split; [|split].
  - intros k o _ Hc Hin. apply Honly in Hin as (_ & Hc' & _). congruence.
  - intros o s Ho Hc Hs. apply (cache_after_contains kept [] o s); [done| |done].
    by apply list_elem_of_filter.
  - intros pre post o s -> Hc Hs Hpost. unfold kept.
    rewrite filter_app, filter_cons_True by done.
    apply cache_after_last_wins; [|done|].
    + apply Forall_forall. intros o' Ho'.
      apply list_elem_of_filter in Ho' as [Hc' Ho'].
      rewrite Forall_forall in Hdesc. apply Hdesc; [|done].
      apply elem_of_app. by left.
    + apply Forall_forall. intros o' Ho' s' Hs'.
      apply list_elem_of_filter in Ho' as [Hc' Ho'].
      rewrite Forall_forall in Hpost. by apply (Hpost o').
Qed.

(** ** The reconciliation never drops a cache key *)

Lemma keeps_keys_ret {A : Type} (a : A) : keeps_keys (ret a).
Proof. by intros w k. Qed.

Lemma keeps_keys_lift {A : Type} (r : result A) : keeps_keys (lift r).
Proof. by intros w k. Qed.

Lemma keeps_keys_bind {A B : Type} (m : M A) (f : A -> M B) :
  keeps_keys m -> (forall a, keeps_keys (f a)) -> keeps_keys (bind m f).
Proof.
  intros Hm Hf w k Hk. unfold bind. specialize (Hm w k Hk).
  destruct (m w) as [[e|a] w']; simpl in *; [done|]. by apply Hf.
Qed.

Lemma keeps_keys_load_types_data : keeps_keys load_types_data.
Proof. by intros w k. Qed.

Lemma keeps_keys_dump_types_data (j : json) : keeps_keys (dump_types_data j).
Proof. by intros w k. Qed.

Lemma keeps_keys_types_data_exists : keeps_keys types_data_exists.
Proof. by intros w k. Qed.

Lemma keeps_keys_cache_items (json_file : list obj) : keeps_keys (cache_items json_file).
Proof.
  intros w k Hk. rewrite cache_items_eq. simpl.
  by apply cache_after_keeps_keys.
Qed.

Ltac keys_step :=
  repeat match goal with
    | |- forall _, _ => intro
    | |- keeps_keys (bind _ _) => apply keeps_keys_bind
    | |- keeps_keys (if ?b then _ else _) => destruct b
    | |- keeps_keys (ret _) => apply keeps_keys_ret
    | |- keeps_keys (lift _) => apply keeps_keys_lift
    | |- keeps_keys load_types_data => apply keeps_keys_load_types_data
    | |- keeps_keys (dump_types_data _) => apply keeps_keys_dump_types_data
    | |- keeps_keys types_data_exists => apply keeps_keys_types_data_exists
    | |- keeps_keys (cache_items _) => apply keeps_keys_cache_items
    end.

Lemma keeps_keys_refresh_store_and_cache (rows : list ExpenseItem.t) :
  keeps_keys (refresh_store_and_cache rows).
Proof. unfold refresh_store_and_cache. keys_step. Qed.

Lemma keeps_keys_refresh_body
    (expense_list : string + list ExpenseItem.t) (reminders : result unit) :
  keeps_keys (refresh_types_data_body expense_list reminders).
Proof.
  destruct expense_list as [error_text|rows]; simpl; keys_step.
  apply keeps_keys_refresh_store_and_cache.
Qed.

Lemma refresh_types_data_world (str_exn : exn -> string)
    (expense_list : string + list ExpenseItem.t) (reminders : result unit) (w : world) :
  snd (refresh_types_data str_exn expense_list reminders w) =
  snd (refresh_types_data_body expense_list reminders w).
Proof.
  unfold refresh_types_data.
  by destruct (refresh_types_data_body expense_list reminders w) as [[e|st] w'].
Qed.

(** C9. Whatever the fetch returned, whatever the store holds and however
    the reminders end, every key of the cache before [refresh_types_data]
    is a key of the cache after it. *)
Theorem C9_refresh_keeps_cache_keys
    (str_exn : exn -> string) (expense_list : string + list ExpenseItem.t)
    (reminders : result unit) (w : world) (k : string) :
  dict_contains (_data_cache w) k = true ->
  dict_contains
    (_data_cache (snd (refresh_types_data str_exn expense_list reminders w))) k = true.
Proof.
  intros Hk. rewrite refresh_types_data_world.
  by apply keeps_keys_refresh_body.
Qed.

(** C10. When the fetch returned an error text, [refresh_types_data]
    returns status "error" with that text, and the process state (the store
    file, the cache, the log of file operations) is the one it started
    from. *)
Theorem C10_fetch_error_changes_nothing
    (str_exn : exn -> string) (error_text : string)
    (reminders : result unit) (w : world) :
  refresh_types_data str_exn (inl error_text) reminders w =
  (mkStatus "error" error_text, w).
Proof. reflexivity. Qed.

(** ** What the reconciliation writes *)

Lemma desc_lower_of_obj (o : obj) :
  string_desc o -> desc_lower_of (JObj o) = inr (desc_key o).
Proof. intros [s Hs]. unfold desc_lower_of, desc_key. simpl. by rewrite Hs. Qed.

Lemma desc_key_has_desc (o : obj) (s : string) : has_desc o s -> desc_key o = lower s.
Proof. unfold has_desc, desc_key. by intros ->. Qed.

Lemma type_entry_has_desc (exp : ExpenseItem.t) :
  has_desc (type_entry exp) (ExpenseItem.desc exp).
Proof. reflexivity. Qed.

Lemma type_entry_classified (exp : ExpenseItem.t) :
  human_classified exp = true -> classified (type_entry exp) = true.
Proof.
  unfold human_classified, classified, nonempty. simpl.
  intros H. apply andb_true_iff in H as [H _]. exact H.
Qed.

Lemma try_map_desc_lower_of (stored : list obj) :
  Forall string_desc stored ->
  try_map desc_lower_of (map JObj stored) = inr (map desc_key stored).
Proof.
  induction 1 as [|o stored Ho _ IH]; simpl; [done|].
  by rewrite (desc_lower_of_obj o Ho), IH.
Qed.

Lemma try_filter_new_types (existing_descs : gset string) (rows : list ExpenseItem.t) :
  try_filter
    (fun item => d <~ desc_lower_of item ;;
                 inr (negb (bool_decide (d ∈ existing_descs))))
    (map (fun exp => JObj (type_entry exp)) rows) =
  inr (map (fun exp => JObj (type_entry exp))
         (filter (fun exp => lower (ExpenseItem.desc exp) ∉ existing_descs) rows)).
Proof.
  induction rows as [|exp rows IH]; simpl; [done|].
  rewrite IH. simpl.
  destruct (decide (lower (ExpenseItem.desc exp) ∈ existing_descs)) as [Hin|Hout].
  - rewrite bool_decide_eq_true_2 by done. simpl.
    rewrite filter_cons_False; [done|]. by intros H.
  - rewrite bool_decide_eq_false_2 by done. simpl.
    by rewrite filter_cons_True.
Qed.

Lemma rows_to_append_no_store (rows : list ExpenseItem.t) :
  rows_to_append [] rows = filter (fun exp => human_classified exp = true) rows.
Proof.
  unfold rows_to_append. apply list_filter_iff. intros exp. simpl. split.
  - by intros [H _].
  - intros H. split; [done|]. apply not_elem_of_nil.
Qed.

Lemma rows_to_append_filtered (stored : list obj) (rows : list ExpenseItem.t) :
  filter (fun exp => lower (ExpenseItem.desc exp) ∉
                       (list_to_set (map desc_key stored) : gset string))
         (filter (fun exp => human_classified exp = true) rows) =
  rows_to_append stored rows.
Proof.
  unfold rows_to_append. rewrite list_filter_filter.
  apply list_filter_iff. intros exp. rewrite elem_of_list_to_set. tauto.
Qed.

Lemma refresh_store_and_cache_eq (rows : list ExpenseItem.t) (w : world) (stored : list obj) :
  stored_records (types_data_json w) stored ->
  Forall string_desc stored ->
  let json_file := stored ++ map type_entry (rows_to_append stored rows) in
  refresh_store_and_cache rows w =
  cache_items (filter (fun o => classified o = true) json_file)
    (logged WriteTypesData
       (with_types_data (Content (JArr (map JObj json_file)))
          (match types_data_json w with
           | NoFile => w
           | _ => logged OpenTypesData w
           end))).
Proof.
  intros [[Hfile ->]|Hfile] Hdesc; simpl;
    unfold refresh_store_and_cache, bind, types_data_exists; rewrite Hfile; simpl.
  - rewrite rows_to_append_no_store.
    rewrite (list_fmap_compose type_entry JObj), classified_items_objs. done.
  - unfold load_types_data, lift. rewrite Hfile. simpl.
    rewrite try_map_desc_lower_of by done. simpl.
    rewrite try_filter_new_types. simpl.
    rewrite rows_to_append_filtered.
    rewrite (list_fmap_compose type_entry JObj), <- fmap_app, classified_items_objs.
    simpl. done.
Qed.

Lemma refresh_rows_world (str_exn : exn -> string)
    (rows : list ExpenseItem.t) (reminders : result unit) (w : world) :
  snd (refresh_types_data str_exn (inr rows) reminders w) =
  snd (refresh_store_and_cache rows w).
Proof.
  rewrite refresh_types_data_world. simpl. unfold bind, lift, ret.
  destruct (refresh_store_and_cache rows w) as [[e|[]] w']; simpl; [done|].
  by destruct reminders.
Qed.

Lemma refresh_rows_store (str_exn : exn -> string)
    (rows : list ExpenseItem.t) (reminders : result unit) (w : world) (stored : list obj) :
  stored_records (types_data_json w) stored ->
  Forall string_desc stored ->
  types_data_json (snd (refresh_types_data str_exn (inr rows) reminders w)) =
  Content (JArr (map JObj (stored ++ map type_entry (rows_to_append stored rows)))).
Proof.
  intros Hstore Hdesc.
  rewrite refresh_rows_world, (refresh_store_and_cache_eq rows w stored) by done.
  by rewrite cache_items_eq.
Qed.

Lemma in_stored_keys (stored : list obj) (k : string) :
  Forall string_desc stored ->
  k ∈ map desc_key stored <-> exists o s, o ∈ stored /\ has_desc o s /\ lower s = k.
Proof.
  intros Hdesc. rewrite list_elem_of_fmap. split.
  - intros (o & -> & Ho). rewrite Forall_forall in Hdesc.
    destruct (Hdesc o Ho) as [s Hs]. exists o, s.
    by rewrite (desc_key_has_desc o s Hs).
  - intros (o & s & Ho & Hs & <-). exists o.
    by rewrite (desc_key_has_desc o s Hs).
Qed.

Lemma human_classified_iff (exp : ExpenseItem.t) :
  human_classified exp = true <->
  ExpenseItem.main_type exp <> "" /\ ExpenseItem.sub_type exp <> "" /\
  ExpenseItem.bot_identified exp <> "Yes".
Proof.
  unfold human_classified, nonempty.
  rewrite !andb_true_iff, !negb_true_iff, !String.eqb_neq. tauto.
Qed.

Lemma filter_none {A : Type} (P : A -> Prop) `{!forall x, Decision (P x)} (l : list A) :
  (forall x, x ∈ l -> ~ P x) -> filter P l = [].
Proof.
  induction l as [|x l IH]; intros Hno; [done|].
  rewrite filter_cons_False.
  - apply IH. intros y Hy. apply Hno. by apply list_elem_of_further.
  - apply Hno. apply list_elem_of_here.
Qed.

Lemma rows_to_append_again (stored : list obj) (rows : list ExpenseItem.t) :
  rows_to_append (stored ++ map type_entry (rows_to_append stored rows)) rows = [].
Proof.
  unfold rows_to_append at 1. apply filter_none. intros exp Hexp [Hhuman Hnew].
  apply Hnew. rewrite fmap_app, elem_of_app.
  destruct (decide (lower (ExpenseItem.desc exp) ∈ map desc_key stored)) as [Hin|Hout];
    [by left|right].
  apply list_elem_of_fmap. exists (type_entry exp). split; [done|].
  apply list_elem_of_fmap. exists exp. split; [done|].
  unfold rows_to_append. by apply list_elem_of_filter.
Qed.

(** ** The claims about [refresh_types_data] *)

(** C8. On a store that is missing or is a list of records with string
    descriptions, [refresh_types_data] leaves the store with the old
    records followed by one entry for each fetched row, in order, that has
    a non-empty main_type and sub_type, is not marked "Yes" as
    bot-identified, and whose lower-cased description is the lower-cased
    description of no record stored before. A second run on the same rows
    leaves the store as the first run left it, so its length is unchanged. *)
Theorem C8_refresh_appends_unseen_rows
    (str_exn : exn -> string) (rows : list ExpenseItem.t)
    (reminders reminders' : result unit) (w : world) (stored : list obj) :
  stored_records (types_data_json w) stored ->
  Forall string_desc stored ->
  let w1 := snd (refresh_types_data str_exn (inr rows) reminders w) in
  let w2 := snd (refresh_types_data str_exn (inr rows) reminders' w1) in
  types_data_json w1 =
    Content (JArr (map JObj (stored ++ map type_entry (rows_to_append stored rows)))) /\
  (forall exp, exp ∈ rows_to_append stored rows <->
     exp ∈ rows /\
     ExpenseItem.main_type exp <> "" /\ ExpenseItem.sub_type exp <> "" /\
     ExpenseItem.bot_identified exp <> "Yes" /\
     forall o s, o ∈ stored -> has_desc o s -> lower s <> lower (ExpenseItem.desc exp)) /\
  types_data_json w2 = types_data_json w1 /\
  store_length (types_data_json w2) = store_length (types_data_json w1) /\
  store_length (types_data_json w1) =
    Some (length stored + length (rows_to_append stored rows)).
Proof.
  intros Hstore Hdesc w1 w2.
  assert (H1 : types_data_json w1 =
    Content (JArr (map JObj (stored ++ map type_entry (rows_to_append stored rows))))).
  { by apply refresh_rows_store. }
  assert (H2 : types_data_json w2 = types_data_json w1).
  { unfold w2.
    rewrite (refresh_rows_store str_exn rows reminders' w1
               (stored ++ map type_entry (rows_to_append stored rows))).
    - by rewrite rows_to_append_again, H1, app_nil_r.
    - right. exact H1.
    - apply Forall_app. split; [done|].
      apply Forall_forall. intros o Ho.
      apply list_elem_of_fmap in Ho as (exp & -> & _).
      exists (ExpenseItem.desc exp). apply type_entry_has_desc. }
  split; [exact H1|]. split; [|split; [exact H2|split; [by rewrite H2|]]].
  - intros exp. unfold rows_to_append.
    rewrite list_elem_of_filter, human_classified_iff, (in_stored_keys stored _ Hdesc).
    split.
    + intros [[(Hm & Hs & Hb) Hnew] Hin]. repeat split; try done.
      intros o s Ho Hos Heq. apply Hnew. by exists o, s.
    + intros (Hin & Hm & Hs & Hb & Hnew). repeat split; try done.
      intros (o & s & Ho & Hos & Heq). by apply (Hnew o s).
  - rewrite H1. simpl. by rewrite length_fmap, length_app, length_fmap.
Qed.

(** ** The theorems at concrete inputs *)

Lemma C1_witness :
  detect_types indel_ratio "Pizza delivery" keyword_world =
    ((JStr "Food", JStr "Outside Food/Dining/Snacks"), logged OpenKeywords keyword_world) /\
  detect_types indel_ratio "milk and bread" keyword_world =
    ((JStr "Household", JStr "Groceries"), logged OpenKeywords keyword_world).
Proof.
  split.
  - apply (C1_keyword_rule_short_circuits indel_ratio "Pizza delivery" keyword_world
             (_data_cache keyword_world) test_keywords ["pizza"; "coffee"]
             eq_refl eq_refl).
    exists "pizza". split; vm_compute; constructor.
  - apply (C1_keyword_rule_short_circuits indel_ratio "milk and bread" keyword_world
             (_data_cache keyword_world) test_keywords ["pizza"; "coffee"]
             eq_refl eq_refl) with (groceries := ["milk"; "bread"]).
    + reflexivity.
    + rewrite <- match_keywords_iff. vm_compute. discriminate.
    + exists "milk". split; vm_compute; constructor.
Defined.

Lemma C2_witness :
  match_keywords "PIZZA order" ["Pizza"] = true /\
  match_keywords "pizzas" ["pizza"] = false.
Proof.
  split.
  - apply (proj1 (proj2 C2_match_keywords_whole_words)).
    exists "pizza". split; vm_compute; constructor.
  - apply (proj1 (proj2 (proj2 C2_match_keywords_whole_words))).
    intros keyword Hk. apply list_elem_of_singleton in Hk as ->.
    intros H. vm_compute in H. inversion H as [|? ? ? H']. inversion H'.
Defined.

Lemma C3_witness :
  (75 < indel_ratio "starbucks cofee" "starbucks coffee")%Z /\
  fst (detect_types indel_ratio "Starbucks Coffee" starbucks_world) =
  (JStr "Food", JStr "Beverages").
Proof.
  split; [vm_compute; reflexivity|].
  apply (C3_exact_hit_wins indel_ratio "Starbucks Coffee" starbucks_world
           (record "Starbucks Coffee" "Food" "Beverages")).
  - reflexivity.
  - reflexivity.
Defined.

Lemma C4_witness :
  indel_ratio "taxifee" "taxi fare" = 75%Z /\
  indel_ratio "taxi fare trip" "taxi fare" = 78%Z /\
  indel_ratio "taxi fares" "taxi fare" = 95%Z /\
  fst (detect_types indel_ratio "Taxi Fare" taxi_world) = (JStr "Transport", JStr "Cab").
Proof.
  repeat (split; [vm_compute; reflexivity|]).
  apply (proj1 (C4_fuzzy_first_above_threshold indel_ratio "Taxi Fare" taxi_world
                  eq_refl eq_refl)
           [("taxifee", record "taxifee" "Bills" "Fees")]
           [("taxi fares", record "Taxi fares" "Transport" "Taxi")]
           "taxi fare trip" (record "Taxi fare trip" "Transport" "Cab")).
  - reflexivity.
  - constructor; [vm_compute; discriminate|constructor].
  - vm_compute. reflexivity.
Defined.

Lemma C5_witness :
  fst (detect_types_body indel_ratio "pizza" list_keywords_world) = inl AttributeError /\
  fst (detect_types indel_ratio "pizza" list_keywords_world) = sentinel /\
  fst (detect_types indel_ratio "xyz123" empty_world) = sentinel.
Proof.
  split; [reflexivity|]. split.
  - apply (proj1 (proj2 (C5_detect_types_total indel_ratio "pizza" list_keywords_world))
             AttributeError).
    reflexivity.
  - apply (proj1 (proj2 (proj2 (C5_detect_types_total indel_ratio "xyz123" empty_world))));
      reflexivity.
Defined.

Lemma C6_witness :
  _data_cache (snd (get_types_data coffee_store)) <> [] /\
  snd (get_types_data (snd (get_types_data coffee_store))) =
  snd (get_types_data coffee_store).
Proof.
  split; [vm_compute; discriminate|].
  apply (proj1 (proj2 (C6_load_idempotent_on_cache coffee_store))).
  vm_compute. discriminate.
Defined.

Lemma C7_witness :
  dict_get (_data_cache (snd (get_types_data coffee_store))) "coffee" =
  Some (record "COFFEE" "Food" "Outside Food/Dining/Snacks") /\
  forall k, (k, record "Taxi" "" "Cab") ∉ _data_cache (snd (get_types_data coffee_store)).
Proof.
  pose proof (C7_load_from_store coffee_store eq_refl) as H.
  destruct H as (_ & _ & H).
  specialize (H [record "Coffee" "Food" "Beverages"; record "Taxi" "" "Cab";
                 record "COFFEE" "Food" "Outside Food/Dining/Snacks"] eq_refl).
  destruct H as (_ & Hout & _ & Hlast).
  - repeat constructor; intros _; eexists; reflexivity.
  - split.
    + apply (Hlast [record "Coffee" "Food" "Beverages"; record "Taxi" "" "Cab"] []
               (record "COFFEE" "Food" "Outside Food/Dining/Snacks") "COFFEE");
        [reflexivity..|constructor].
    + intros k. apply Hout; [|reflexivity].
      apply list_elem_of_further, list_elem_of_here.
Defined.

Lemma C8_witness :
  let w1 := snd (refresh_types_data sample_str (inr sample_rows) (inr tt) stale_cache_world) in
  let w2 := snd (refresh_types_data sample_str (inr sample_rows) (inl OtherException) w1) in
  types_data_json w1 =
    Content (JArr [JObj (record "Coffee" "Food" "Beverages");
                   JObj (record "Tea" "Food" "Beverages")]) /\
  store_length (types_data_json w2) = Some 2.
Proof.
  intros w1 w2.
  destruct (C8_refresh_appends_unseen_rows sample_str sample_rows (inr tt)
              (inl OtherException) stale_cache_world
              [record "Coffee" "Food" "Beverages"])
    as (H1 & _ & _ & H3 & H4).
  - right. reflexivity.
  - repeat constructor. eexists. reflexivity.
  - split.
    + fold w1 in H1. rewrite H1. vm_compute. reflexivity.
    + fold w1 in H3, H4. fold w2 in H3. rewrite H3, H4. vm_compute. reflexivity.
Defined.

Lemma C9_witness :
  dict_contains (_data_cache stale_cache_world) "taxi" = true /\
  dict_contains
    (_data_cache (snd (refresh_types_data sample_str (inr sample_rows) (inr tt)
                         stale_cache_world))) "taxi" = true.
Proof.
  split; [reflexivity|].
  apply C9_refresh_keeps_cache_keys. reflexivity.
Defined.

(** * Further properties of the classifier and the reconciliation *)

(** ** The shape of the cache after a load or a refresh *)

Lemma classified_items_all (items : list json) (json_file : list obj) :
  classified_items items = inr json_file ->
  Forall (fun o => classified o = true) json_file.
Proof.
  revert json_file. induction items as [|item items IH]; simpl; intros json_file.
  - intros [= <-]. constructor.
  - destruct (as_obj item) as [e|o]; simpl; [done|].
    destruct (classified_items items) as [e|kept]; simpl; [done|].
    fold (classified o). destruct (classified o) eqn:Hc; intros [= <-].
    + constructor; [done|]. by apply IH.
    + by apply IH.
Qed.

Lemma loaded_from_form (f : file_state) :
  exists json_file : list obj,
    Forall (fun o => classified o = true) json_file /\
    loaded_from f = snd (cache_after json_file []).
Proof.
  unfold loaded_from.
  destruct (j <~ json_load f;; items <~ py_iter j;; classified_items items)
    as [e|json_file] eqn:E.
  - exists []. by split.
  - exists json_file. split; [|done].
    destruct (json_load f) as [e|j]; simpl in E; [done|].
    destruct (py_iter j) as [e|items]; simpl in E; [done|].
    by apply (classified_items_all items).
Qed.

Ltac cache_loop_tail :=
  match goal with
  | |- context [classified_items ?l] =>
      let E := fresh "E" in
      destruct (classified_items l) as [?|?json_file] eqn:E; simpl;
      [ exists []; by split
      | eexists; split;
        [ by apply (classified_items_all l) | by rewrite cache_items_eq ] ]
  end.

Lemma refresh_cache_form (rows : list ExpenseItem.t) (w : world) :
  exists json_file : list obj,
    Forall (fun o => classified o = true) json_file /\
    _data_cache (snd (refresh_store_and_cache rows w)) =
    snd (cache_after json_file (_data_cache w)).
Proof.
  unfold refresh_store_and_cache, bind, types_data_exists, load_types_data,
    dump_types_data, lift, ret.
  destruct (types_data_json w) as [| |j] eqn:Hf; simpl; rewrite ?Hf; simpl.
  - cache_loop_tail.
  - exists []. by split.
  - destruct (py_iter j) as [e|items]; simpl; [exists []; by split|].
    destruct (try_map desc_lower_of items) as [e|descs]; simpl; [exists []; by split|].
    destruct (try_filter _ _) as [e|new_types]; simpl; [exists []; by split|].
    destruct (extend j new_types) as [e|json_file]; simpl; [exists []; by split|].
    cache_loop_tail.
Qed.

Lemma dict_keys_set {V : Type} (k : string) (v : V) (d : dict V) :
  dict_keys (dict_set k v d) =
  dict_keys d ++ (if dict_contains d k then [] else [k]).
Proof.
  unfold dict_keys, dict_contains.
  induction d as [|[k' v'] d IH]; simpl; [done|].
  destruct (String.eqb k k') eqn:E; simpl.
  - by rewrite app_nil_r.
  - by rewrite IH.
Qed.

Lemma cache_after_keys (json_file : list obj) (cache : dict obj) :
  exists added : list string,
    dict_keys (snd (cache_after json_file cache)) = dict_keys cache ++ added.
Proof.
  revert cache. induction json_file as [|item rest IH]; intros cache; simpl.
  - exists []. by rewrite app_nil_r.
  - destruct (py_lower (obj_get item "desc")) as [e|key]; simpl.
    + exists []. by rewrite app_nil_r.
    + destruct (IH (dict_set key item cache)) as [added Hadded].
      rewrite Hadded, dict_keys_set, <- app_assoc. eauto.
Qed.

Lemma dict_set_ok (k : string) (item : obj) (cache : dict obj) :
  entry_ok (k, item) -> cache_ok cache -> cache_ok (dict_set k item cache).
Proof.
  intros Hentry Hcache. induction Hcache as [|[k' v'] cache Hk' Hcache IH]; simpl.
  - constructor; [done|constructor].
  - destruct (String.eqb k k') eqn:E.
    + apply String.eqb_eq in E. subst k'. by constructor.
    + by constructor.
Qed.

Lemma cache_after_ok (json_file : list obj) (cache : dict obj) :
  Forall (fun o => classified o = true) json_file ->
  cache_ok cache -> cache_ok (snd (cache_after json_file cache)).
Proof.
  intros Hall. revert cache.
  induction Hall as [|item rest Hitem _ IH]; intros cache Hcache; simpl; [done|].
  destruct (obj_get item "desc") as [| | |s| |] eqn:Hd; simpl; try done.
  apply IH, dict_set_ok; [|done]. split; [done|]. by exists s.
Qed.

Lemma detect_types_world (fuzz_ratio : string -> string -> Z) (desc : string) (w : world) :
  snd (detect_types fuzz_ratio desc w) = logged OpenKeywords w \/
  snd (detect_types fuzz_ratio desc w) = snd (get_types_data (logged OpenKeywords w)).
Proof.
  unfold detect_types, detect_types_body, bind.
  pose proof (keyword_stage_world (lower desc) w) as Hw.
  destruct (keyword_stage (lower desc) w) as [[e|[types|]] w1]; simpl in Hw; subst w1;
    [by left..|].
  right. pose proof (get_types_data_eq (logged OpenKeywords w)) as Hg.
  destruct (get_types_data (logged OpenKeywords w)) as [r w2].
  injection Hg as -> Hw2. unfold read_cache, ret. simpl.
  destruct (dict_get (_data_cache w2) (lower desc)); [done|].
  by destruct (fuzzy_scan fuzz_ratio (lower desc) (_data_cache w2)).
Qed.

Lemma get_types_data_cache_ok (w : world) :
  cache_ok (_data_cache w) -> cache_ok (_data_cache (snd (get_types_data w))).
Proof.
  intros Hok. rewrite get_types_data_eq. simpl.
  destruct (_data_cache w) as [|entry rest] eqn:Hc; simpl; [|by rewrite Hc].
  destruct (loaded_from_form (types_data_json w)) as (json_file & Hall & ->).
  apply cache_after_ok; [done|constructor].
Qed.

(** ** Invariants *)

(** X1. The cache only ever holds classified records, each under the
    lower-cased form of its own desc: a load, a refresh and a
    classification keep that, whatever the store and the sheet hold. *)
Theorem X1_cache_entries_stay_well_formed
    (fuzz_ratio : string -> string -> Z) (str_exn : exn -> string)
    (expense_list : string + list ExpenseItem.t) (reminders : result unit)
    (desc : string) (w : world) :
  cache_ok (_data_cache w) ->
  cache_ok (_data_cache (snd (get_types_data w))) /\
  cache_ok (_data_cache (snd (refresh_types_data str_exn expense_list reminders w))) /\
  cache_ok (_data_cache (snd (detect_types fuzz_ratio desc w))).
Proof.
  intros Hok. split; [by apply get_types_data_cache_ok|]. split.
  - rewrite refresh_types_data_world.
    destruct expense_list as [error_text|rows]; simpl; [done|].
    assert (Hsame : snd (bind (refresh_store_and_cache rows)
                           (fun _ => bind (lift reminders)
                              (fun _ => ret (mkStatus "success"
                                 "Types data refreshed successfully."))) w) =
                    snd (refresh_store_and_cache rows w)).
    { unfold bind, lift, ret.
      destruct (refresh_store_and_cache rows w) as [[e|[]] w']; simpl; [done|].
      by destruct reminders. }
    rewrite Hsame.
    destruct (refresh_cache_form rows w) as (json_file & Hall & ->).
    by apply cache_after_ok.
  - destruct (detect_types_world fuzz_ratio desc w) as [-> | ->]; [done|].
    by apply (get_types_data_cache_ok (logged OpenKeywords w)).
Qed.

Lemma keyword_stage_hit_form (desc_lower : string) (w : world) (types : json * json) :
  fst (keyword_stage desc_lower w) = inr (Some types) ->
  types = (JStr "Food", JStr "Outside Food/Dining/Snacks") \/
  types = (JStr "Household", JStr "Groceries").
Proof.
  unfold keyword_stage, try_except, load_keywords, bind, lift, ret.
  destruct (json_load (keywords_json w)) as [[]|j]; simpl; try done.
  destruct (as_obj j) as [[]|keywords]; simpl; try done.
  destruct (call_match_keywords desc_lower (obj_get_default keywords "food" (JArr [])))
    as [[]|[]]; simpl; try done.
  - intros [= <-]. by left.
  - destruct (call_match_keywords desc_lower
                (obj_get_default keywords "groceries" (JArr [])))
      as [[]|[]]; simpl; try done.
    intros [= <-]. by right.
Qed.

Lemma detect_types_keyword_error
    (fuzz_ratio : string -> string -> Z) (desc : string) (w : world) (e : exn) :
  fst (keyword_stage (lower desc) w) = inl e ->
  detect_types fuzz_ratio desc w = (sentinel, logged OpenKeywords w).
Proof.
  intros Hkw. unfold detect_types, detect_types_body, bind.
  pose proof (keyword_stage_world (lower desc) w) as Hw.
  destruct (keyword_stage (lower desc) w) as [r w1]. simpl in *. by subst.
Qed.

Lemma classified_category (o : obj) :
  classified o = true ->
  truthy (fst (category_of o)) = true /\ truthy (snd (category_of o)) = true.
Proof.
  unfold classified, category_of, obj_get, obj_get_default. simpl.
  intros H. apply andb_true_iff in H as [Hm Hs].
  destruct (dict_get o "main_type"); [|done].
  by destruct (dict_get o "sub_type").
Qed.

Lemma fuzzy_scan_elem_of (fuzz_ratio : string -> string -> Z)
    (desc_lower : string) (cache : dict obj) (item : obj) :
  fuzzy_scan fuzz_ratio desc_lower cache = Some item ->
  exists cached_desc,
    (cached_desc, item) ∈ cache /\
    (FUZZY_MATCH_THRESHOLD < fuzz_ratio cached_desc desc_lower)%Z.
Proof.
  induction cache as [|[k v] cache IH]; simpl; [done|].
  destruct (FUZZY_MATCH_THRESHOLD <? fuzz_ratio k desc_lower)%Z eqn:E.
  - intros [= ->]. exists k. split; [apply list_elem_of_here|]. by apply Z.ltb_lt.
  - intros H. destruct (IH H) as (k' & Hin & Hk'). exists k'.
    split; [by apply list_elem_of_further|done].
Qed.

Lemma cache_lookup_ok (fuzz_ratio : string -> string -> Z)
    (desc_lower : string) (cache : dict obj) :
  cache_ok cache ->
  let types := cache_lookup fuzz_ratio desc_lower cache in
  types = sentinel \/ (truthy (fst types) = true /\ truthy (snd types) = true).
Proof.
  intros Hok. simpl. unfold cache_lookup. unfold cache_ok in Hok.
  rewrite Forall_forall in Hok.
  destruct (dict_get cache desc_lower) as [item|] eqn:Hget.
  - right. apply classified_category.
    apply dict_get_elem_of in Hget. by destruct (Hok _ Hget).
  - destruct (fuzzy_scan fuzz_ratio desc_lower cache) as [item|] eqn:Hscan; [|by left].
    right. apply classified_category.
    apply fuzzy_scan_elem_of in Hscan as (k & Hin & _). by destruct (Hok _ Hin).
Qed.

Lemma detect_types_whole_or_empty
    (fuzz_ratio : string -> string -> Z) (desc : string) (w : world) :
  cache_ok (_data_cache w) ->
  fst (detect_types fuzz_ratio desc w) = sentinel \/
  (truthy (fst (fst (detect_types fuzz_ratio desc w))) = true /\
   truthy (snd (fst (detect_types fuzz_ratio desc w))) = true).
Proof.
  intros Hok.
  destruct (fst (keyword_stage (lower desc) w)) as [e|[types|]] eqn:Hkw.
  - left. by rewrite (detect_types_keyword_error _ _ _ e).
  - right. rewrite (detect_types_keyword_hit _ _ _ types) by done. simpl.
    by destruct (keyword_stage_hit_form _ _ _ Hkw) as [-> | ->].
  - rewrite detect_types_fall_through by done. simpl.
    apply cache_lookup_ok. by apply get_types_data_cache_ok.
Qed.

(** X2. With a well-formed cache, [detect_types] returns either ("", "")
    or a pair whose main_type and sub_type are both non-empty: it never
    returns half a category. *)
Theorem X2_classification_is_whole_or_empty
    (fuzz_ratio : string -> string -> Z) (desc : string) (w : world) :
  cache_ok (_data_cache w) ->
  let types := fst (detect_types fuzz_ratio desc w) in
  types = sentinel \/ (truthy (fst types) = true /\ truthy (snd types) = true).
Proof. intros Hok. simpl. by apply detect_types_whole_or_empty. Qed.

(** X3. A load, a refresh and a classification leave the keys that were in
    the cache where they stand in iteration order; keys they add come
    after them. *)
Theorem X3_cache_keys_keep_their_order
    (fuzz_ratio : string -> string -> Z) (str_exn : exn -> string)
    (expense_list : string + list ExpenseItem.t) (reminders : result unit)
    (desc : string) (w : world) :
  (exists added,
     dict_keys (_data_cache (snd (get_types_data w))) =
     dict_keys (_data_cache w) ++ added) /\
  (exists added,
     dict_keys (_data_cache (snd (refresh_types_data str_exn expense_list reminders w))) =
     dict_keys (_data_cache w) ++ added) /\
  (exists added,
     dict_keys (_data_cache (snd (detect_types fuzz_ratio desc w))) =
     dict_keys (_data_cache w) ++ added).
Proof.
  assert (Hload : forall w0, exists added,
            dict_keys (_data_cache (snd (get_types_data w0))) =
            dict_keys (_data_cache w0) ++ added).
  { intros w0. rewrite get_types_data_eq. simpl.
    destruct (_data_cache w0) as [|entry rest] eqn:Hc; simpl.
    - destruct (loaded_from_form (types_data_json w0)) as (json_file & _ & ->).
      apply cache_after_keys.
    - exists []. by rewrite Hc, app_nil_r. }
  split; [apply Hload|]. split.
  - destruct expense_list as [error_text|rows].
    + exists []. by rewrite app_nil_r.
    + rewrite refresh_rows_world.
      destruct (refresh_cache_form rows w) as (json_file & _ & ->).
      apply cache_after_keys.
  - destruct (detect_types_world fuzz_ratio desc w) as [-> | ->].
    + exists []. by rewrite app_nil_r.
    + apply (Hload (logged OpenKeywords w)).
Qed.

(** ** What a classification leaves alone *)

(** X4. [detect_types] writes no file: both files are as before, and the
    only file operations are the read of keywords.json and at most one read
    of the store. With a non-empty cache it does not read the store and
    leaves the cache as it is. *)
Theorem X4_detect_types_reads_only
    (fuzz_ratio : string -> string -> Z) (desc : string) (w : world) :
  let w' := snd (detect_types fuzz_ratio desc w) in
  keywords_json w' = keywords_json w /\
  types_data_json w' = types_data_json w /\
  (io_log w' = OpenKeywords :: io_log w \/
   io_log w' = OpenTypesData :: OpenKeywords :: io_log w) /\
  (_data_cache w <> [] ->
   _data_cache w' = _data_cache w /\ io_log w' = OpenKeywords :: io_log w).
Proof.
  simpl. destruct (detect_types_world fuzz_ratio desc w) as [-> | ->].
  - simpl. split; [done|]. split; [done|]. split; [by left|done].
  - rewrite get_types_data_eq. simpl.
    destruct (_data_cache w) as [|entry rest] eqn:Hc; simpl.
    + split; [done|]. split; [done|]. split; [by right|done].
    + rewrite Hc. split; [done|]. split; [done|]. split; [by left|done].
Qed.

(** ** What a refresh does to the store *)

Lemma cache_loop_store (items : list json) (w : world) :
  types_data_json
    (snd (match classified_items items with
          | inl e => (inl e, w)
          | inr json_file => cache_items json_file w
          end)) = types_data_json w.
Proof.
  destruct (classified_items items) as [e|json_file]; [done|].
  by rewrite cache_items_eq.
Qed.

Lemma try_filter_kept (existing_descs : gset string) (rows : list ExpenseItem.t) :
  exists kept : list ExpenseItem.t,
    Forall (fun exp => exp ∈ rows) kept /\
    try_filter
      (fun item => d <~ desc_lower_of item ;;
                   inr (negb (bool_decide (d ∈ existing_descs))))
      (map (fun exp => JObj (type_entry exp)) rows) =
    inr (map (fun exp => JObj (type_entry exp)) kept).
Proof.
  exists (filter (fun exp => lower (ExpenseItem.desc exp) ∉ existing_descs) rows).
  split; [|apply try_filter_new_types].
  apply Forall_forall. intros exp Hexp. by apply list_elem_of_filter in Hexp as [_ ?].
Qed.

(** X5. A refresh never shortens or rewrites what the store holds: the
    store is left as it was, or it was missing and now holds entries of
    fetched rows, or it was a list and now is that list followed by entries
    of fetched rows. Every entry written comes from a fetched row with
    main_type and sub_type that is not marked "Yes". *)
Theorem X5_refresh_only_appends_to_store
    (str_exn : exn -> string) (expense_list : string + list ExpenseItem.t)
    (reminders : result unit) (w : world) :
  let before := types_data_json w in
  let after := types_data_json (snd (refresh_types_data str_exn expense_list reminders w)) in
  after = before \/
  exists (rows kept : list ExpenseItem.t),
    expense_list = inr rows /\
    Forall (fun exp => exp ∈ rows /\ human_classified exp = true) kept /\
    ((before = NoFile /\
      after = Content (JArr (map (fun exp => JObj (type_entry exp)) kept))) \/
     (exists items : list json,
        before = Content (JArr items) /\
        after = Content (JArr (items ++ map (fun exp => JObj (type_entry exp)) kept)))).
Proof.
  simpl. destruct expense_list as [error_text|rows]; [by left|].
  rewrite refresh_rows_world.
  unfold refresh_store_and_cache, bind, types_data_exists, load_types_data,
    dump_types_data, lift, ret.
  destruct (types_data_json w) as [| |j] eqn:Hf; simpl; rewrite ?Hf; simpl.
  - right. exists rows, (filter (fun exp => human_classified exp = true) rows).
    split; [done|]. split.
    { apply Forall_forall. intros exp Hexp. apply list_elem_of_filter in Hexp. tauto. }
    left. split; [done|]. by rewrite cache_loop_store.
  - by left.
  - destruct (py_iter j) as [e|items]; simpl; [by left|].
    destruct (try_map desc_lower_of items) as [e|descs]; simpl; [by left|].
    destruct (try_filter_kept (list_to_set descs)
                (filter (fun exp => human_classified exp = true) rows))
      as (kept & Hkept & ->). simpl.
    destruct j as [| | | |stored|]; simpl; try by left.
    rewrite cache_loop_store. simpl.
    right. exists rows, kept. split; [done|]. split.
    { rewrite Forall_forall in Hkept. apply Forall_forall. intros exp Hexp.
      apply Hkept, list_elem_of_filter in Hexp. tauto. }
    right. by exists stored.
Qed.

(** X6. When the store is not JSON, a refresh reports "JSON error" and
    leaves the store, unparsed as it is, and the cache untouched; its only
    file operation is the attempt to read the store. *)
Theorem X6_refresh_leaves_unparseable_store
    (str_exn : exn -> string) (rows : list ExpenseItem.t)
    (reminders : result unit) (w : world) :
  types_data_json w = BadJson ->
  refresh_types_data str_exn (inr rows) reminders w =
  (mkStatus "error" ("JSON error: " +:+ str_exn JSONDecodeError),
   logged OpenTypesData w).
Proof.
  intros Hf. unfold refresh_types_data, refresh_types_data_body,
    refresh_store_and_cache, bind, types_data_exists, load_types_data.
  rewrite Hf. simpl. by rewrite Hf.
Qed.

Lemma refresh_store_and_cache_finishes
    (rows : list ExpenseItem.t) (w : world) (stored : list obj) :
  stored_records (types_data_json w) stored ->
  Forall string_desc stored ->
  fst (refresh_store_and_cache rows w) = inr tt.
Proof.
  intros Hstore Hdesc.
  rewrite (refresh_store_and_cache_eq rows w stored), cache_items_eq by done.
  simpl. apply cache_after_finishes.
  apply Forall_forall. intros o Ho. apply list_elem_of_filter in Ho as [_ Ho].
  apply elem_of_app in Ho as [Ho|Ho].
  - rewrite Forall_forall in Hdesc. by apply Hdesc.
  - apply list_elem_of_fmap in Ho as (exp & -> & _).
    exists (ExpenseItem.desc exp). apply type_entry_has_desc.
Qed.

(** X7. On a store that is missing or a list of records with string
    descriptions, the status of a refresh is decided by the reminder
    messages alone: "success" when they went out, "error" with the text of
    the exception when one of them raised. In both cases the store and the
    cache are the ones a successful refresh leaves. *)
Theorem X7_refresh_status_follows_reminders
    (str_exn : exn -> string) (rows : list ExpenseItem.t)
    (reminders : result unit) (w : world) (stored : list obj) :
  stored_records (types_data_json w) stored ->
  Forall string_desc stored ->
  fst (refresh_types_data str_exn (inr rows) reminders w) =
    match reminders with
    | inr _ => mkStatus "success" "Types data refreshed successfully."
    | inl e =>
        mkStatus "error"
          match e with
          | FileNotFoundError => "File not found: " +:+ str_exn e
          | JSONDecodeError => "JSON error: " +:+ str_exn e
          | _ => str_exn e
          end
    end /\
  snd (refresh_types_data str_exn (inr rows) reminders w) =
  snd (refresh_types_data str_exn (inr rows) (inr tt) w) /\
  types_data_json (snd (refresh_types_data str_exn (inr rows) reminders w)) =
  Content (JArr (map JObj (stored ++ map type_entry (rows_to_append stored rows)))).
Proof.
  intros Hstore Hdesc. split; [|split].
  - pose proof (refresh_store_and_cache_finishes rows w stored Hstore Hdesc) as Hfin.
    unfold refresh_types_data, refresh_types_data_body, bind, lift, ret.
    destruct (refresh_store_and_cache rows w) as [r w']. simpl in Hfin. subst r.
    by destruct reminders as [e|[]].
  - by rewrite !refresh_rows_world.
  - by apply refresh_rows_store.
Qed.

Lemma get_types_data_loaded (w : world) (k : string) (o : obj) :
  dict_get (_data_cache w) k = Some o ->
  _data_cache (snd (get_types_data w)) = _data_cache w.
Proof.
  intros Hget. rewrite get_types_data_eq. simpl.
  destruct (_data_cache w) as [|entry rest] eqn:Hc; simpl; [done|].
  by rewrite Hc.
Qed.

Lemma refresh_rows_cache (str_exn : exn -> string)
    (rows : list ExpenseItem.t) (reminders : result unit) (w : world) (stored : list obj) :
  stored_records (types_data_json w) stored ->
  Forall string_desc stored ->
  _data_cache (snd (refresh_types_data str_exn (inr rows) reminders w)) =
  snd (cache_after
         (filter (fun o => classified o = true)
            (stored ++ map type_entry (rows_to_append stored rows)))
         (_data_cache w)).
Proof.
  intros Hstore Hdesc.
  rewrite refresh_rows_world, (refresh_store_and_cache_eq rows w stored) by done.
  rewrite cache_items_eq. simpl.
  by destruct (types_data_json w).
Qed.

Lemma rows_to_append_human (stored : list obj) (rows : list ExpenseItem.t)
    (exp : ExpenseItem.t) :
  exp ∈ rows_to_append stored rows -> human_classified exp = true.
Proof. unfold rows_to_append. intros H. apply list_elem_of_filter in H. tauto. Qed.

(** X8. The feedback loop. After a refresh on a well-formed store, a row
    that was appended, and is the last appended row with its lower-cased
    description, is what [detect_types] answers with for every description
    that lower-cases to the same string, as long as the keyword stage
    falls through. *)
Theorem X8_refresh_teaches_the_classifier
    (fuzz_ratio : string -> string -> Z) (str_exn : exn -> string)
    (rows : list ExpenseItem.t) (reminders : result unit) (w : world)
    (stored : list obj) (pre post : list ExpenseItem.t) (exp : ExpenseItem.t)
    (desc : string) :
  stored_records (types_data_json w) stored ->
  Forall string_desc stored ->
  rows_to_append stored rows = pre ++ exp :: post ->
  Forall (fun later => lower (ExpenseItem.desc later) <> lower (ExpenseItem.desc exp)) post ->
  lower desc = lower (ExpenseItem.desc exp) ->
  let w1 := snd (refresh_types_data str_exn (inr rows) reminders w) in
  fst (keyword_stage (lower desc) w1) = inr None ->
  fst (detect_types fuzz_ratio desc w1) =
  (JStr (ExpenseItem.main_type exp), JStr (ExpenseItem.sub_type exp)).
Proof.
  intros Hstore Hdesc Hrows Hpost Hkey w1 Hkw.
  assert (Hget : dict_get (_data_cache w1) (lower (ExpenseItem.desc exp)) =
                 Some (type_entry exp)).
  { unfold w1. rewrite (refresh_rows_cache str_exn rows reminders w stored) by done.
    rewrite Hrows, fmap_app, fmap_cons, app_assoc, filter_app, filter_cons_True.
    2:{ apply type_entry_classified, (rows_to_append_human stored rows).
        rewrite Hrows. apply elem_of_app. right. apply list_elem_of_here. }
    apply cache_after_last_wins.
    - apply Forall_forall. intros o Ho. apply list_elem_of_filter in Ho as [_ Ho].
      apply elem_of_app in Ho as [Ho|Ho].
      + rewrite Forall_forall in Hdesc. by apply Hdesc.
      + apply list_elem_of_fmap in Ho as (exp' & -> & _).
        exists (ExpenseItem.desc exp'). apply type_entry_has_desc.
    - apply type_entry_has_desc.
    - apply Forall_forall. intros o Ho s' Hs'.
      apply list_elem_of_filter in Ho as [_ Ho].
      apply list_elem_of_fmap in Ho as (later & -> & Hlater).
      rewrite Forall_forall in Hpost.
      rewrite <- (has_desc_unique _ _ _ (type_entry_has_desc later) Hs').
      by apply Hpost. }
  rewrite detect_types_fall_through by done. simpl.
  rewrite (get_types_data_loaded w1 _ _ Hget). unfold cache_lookup.
  by rewrite Hkey, Hget.
Qed.

(** ** From the store to a classification *)

Lemma loaded_from_records (records : list obj) :
  loaded_from (Content (JArr (map JObj records))) =
  snd (cache_after (filter (fun o => classified o = true) records) []).
Proof. unfold loaded_from. simpl. by rewrite classified_items_objs. Qed.

Lemma filter_classified_string_desc (records : list obj) :
  Forall (fun o => classified o = true -> string_desc o) records ->
  Forall string_desc (filter (fun o => classified o = true) records).
Proof.
  intros Hall. apply Forall_forall. intros o Ho.
  apply list_elem_of_filter in Ho as [Hc Ho].
  rewrite Forall_forall in Hall. by apply Hall.
Qed.

(** X9. From the store to the answer. Starting with an empty cache, a
    classified record of the store that is the last one with its
    lower-cased desc decides the classification of every description that
    lower-cases to the same string, as long as the keyword stage falls
    through: the case of the stored desc and of the description play no
    part. *)
Theorem X9_stored_record_decides_classification
    (fuzz_ratio : string -> string -> Z) (desc : string) (w : world)
    (pre post : list obj) (o : obj) (s : string) :
  _data_cache w = [] ->
  types_data_json w = Content (JArr (map JObj (pre ++ o :: post))) ->
  Forall (fun o' => classified o' = true -> string_desc o') pre ->
  classified o = true -> has_desc o s ->
  Forall (fun o' => classified o' = true ->
                    forall s', has_desc o' s' -> lower s' <> lower s) post ->
  lower desc = lower s ->
  fst (keyword_stage (lower desc) w) = inr None ->
  fst (detect_types fuzz_ratio desc w) = category_of o.
Proof.
  intros Hempty Hstore Hpre Hc Hs Hpost Hkey Hkw.
  rewrite detect_types_fall_through by done. simpl.
  rewrite get_types_data_eq, Hempty. simpl.
  rewrite Hstore, loaded_from_records, filter_app, filter_cons_True by done.
  unfold cache_lookup. rewrite Hkey, cache_after_last_wins; [done| |done|].
  - by apply filter_classified_string_desc.
  - apply Forall_forall. intros o' Ho' s' Hs'.
    apply list_elem_of_filter in Ho' as [Hc' Ho'].
    rewrite Forall_forall in Hpost. by apply (Hpost o').
Qed.

(** X10. A load stops at the first classified record whose desc is not a
    string: the call still returns normally, and the cache holds what a
    store ending just before that record would have given. The records
    after it are not loaded. *)
Theorem X10_load_stops_at_record_without_desc
    (w : world) (pre post : list obj) (bad : obj) :
  _data_cache w = [] ->
  types_data_json w = Content (JArr (map JObj (pre ++ bad :: post))) ->
  Forall (fun o => classified o = true -> string_desc o) pre ->
  classified bad = true -> ~ string_desc bad ->
  fst (get_types_data w) = inr tt /\
  _data_cache (snd (get_types_data w)) =
  _data_cache (snd (get_types_data
                      (with_types_data (Content (JArr (map JObj pre))) w))).
Proof.
  intros Hempty Hstore Hpre Hc Hbad.
  rewrite !get_types_data_eq. simpl. rewrite Hempty. simpl. split; [done|].
  rewrite Hstore, !loaded_from_records, filter_app, filter_cons_True by done.
  rewrite cache_after_app by by apply filter_classified_string_desc.
  simpl. destruct (obj_get bad "desc") as [| | |s| |] eqn:Hd; simpl; try done.
  destruct Hbad. by exists s.
Qed.

Lemma try_map_fails {A B : Type} (f : A -> result B) (l : list A) (a : A) (e : exn) :
  a ∈ l -> f a = inl e -> exists e', try_map f l = inl e'.
Proof.
  intros Hin Hf. induction l as [|x l IH]; [by apply elem_of_nil in Hin|].
  simpl. apply elem_of_cons in Hin as [<-|Hin].
  - rewrite Hf. simpl. eauto.
  - destruct (f x) as [e'|b]; simpl; [eauto|].
    destruct (IH Hin) as [e' ->]. simpl. eauto.
Qed.

Lemma classified_items_fails (items : list json) (item : json) :
  item ∈ items -> (forall o, item <> JObj o) ->
  exists e, classified_items items = inl e.
Proof.
  intros Hin Hitem. induction items as [|x items IH]; [by apply elem_of_nil in Hin|].
  simpl. apply elem_of_cons in Hin as [<-|Hin].
  - destruct item; simpl; eauto. by destruct (Hitem fields).
  - destruct (as_obj x) as [e|o]; simpl; [eauto|].
    destruct (IH Hin) as [e ->]. simpl. eauto.
Qed.

(** X11. One item of the store that is not a JSON object disables both
    readers: a load leaves the empty cache empty, and a refresh reports an
    error without writing the store or touching the cache. *)
Theorem X11_store_item_that_is_no_record
    (str_exn : exn -> string) (rows : list ExpenseItem.t) (reminders : result unit)
    (w : world) (items : list json) (item : json) :
  types_data_json w = Content (JArr items) ->
  item ∈ items -> (forall o, item <> JObj o) ->
  (_data_cache w = [] -> _data_cache (snd (get_types_data w)) = []) /\
  status (fst (refresh_types_data str_exn (inr rows) reminders w)) = "error" /\
  snd (refresh_types_data str_exn (inr rows) reminders w) = logged OpenTypesData w.
Proof.
  intros Hstore Hin Hitem. split.
  - intros Hempty. rewrite get_types_data_eq, Hempty. simpl.
    rewrite Hstore. unfold loaded_from. simpl.
    by destruct (classified_items_fails items item Hin Hitem) as [e ->].
  - assert (Hdesc : exists e, try_map desc_lower_of items = inl e).
    { apply (try_map_fails _ _ item AttributeError); [done|].
      destruct item; try done. by destruct (Hitem fields). }
    destruct Hdesc as [e Hdesc].
    unfold refresh_types_data, refresh_types_data_body, refresh_store_and_cache,
      bind, types_data_exists, load_types_data, lift.
    rewrite Hstore. simpl. rewrite Hstore. simpl. by rewrite Hdesc.
Qed.

(** ** More on the keyword stage *)

(** X12. [match_keywords] ignores the case of the description and of
    every keyword, never matches on an empty keyword list, and matching
    against two lists joined is matching against one or the other. *)
Theorem X12_match_keywords_algebra (description : string) (keywords more : list string) :
  match_keywords (lower description) (map lower keywords) =
    match_keywords description keywords /\
  match_keywords description [] = false /\
  match_keywords description (keywords ++ more) =
    match_keywords description keywords || match_keywords description more.
Proof.
  split; [|split].
  - apply eq_true_iff_eq. rewrite !match_keywords_iff, lower_idempotent.
    assert (Hmap : map lower (map lower keywords) = map lower keywords).
    { induction keywords as [|k ks IH]; simpl; [done|].
      by rewrite lower_idempotent, IH. }
    by rewrite Hmap.
  - apply match_keywords_false. intros word _ Hin. by apply elem_of_nil in Hin.
  - apply eq_true_iff_eq.
    rewrite orb_true_iff, !match_keywords_iff, fmap_app. split.
    + intros (word & Hword & Hkey). apply elem_of_app in Hkey as [Hkey|Hkey]; eauto.
    + intros [(word & Hword & Hkey)|(word & Hword & Hkey)];
        exists word; (split; [done|]); apply elem_of_app; auto.
Qed.

Lemma try_map_as_str_error (items : list json) (e : exn) :
  try_map as_str items = inl e -> e = AttributeError.
Proof.
  induction items as [|item items IH]; simpl; [done|].
  destruct item; simpl; try by intros [= <-].
  destruct (try_map as_str items) as [e'|ks]; simpl; [|done].
  intros [= <-]. by apply IH.
Qed.

(** X13. A keywords.json that parses but has the wrong shape switches the
    classifier off: when it is not a mapping, or its food entry is null, a
    boolean or a number, or a list with an item that is not a string,
    [detect_types] answers ("", "") for every description and never looks
    at the cache or the store. *)
Theorem X13_keywords_of_wrong_shape
    (fuzz_ratio : string -> string -> Z) (desc : string) (w : world) (j : json) :
  keywords_json w = Content j ->
  (forall keywords, j <> JObj keywords) \/
  (exists keywords,
     j = JObj keywords /\
     (py_iter (obj_get_default keywords "food" (JArr [])) = inl TypeError \/
      exists items item,
        obj_get_default keywords "food" (JArr []) = JArr items /\
        item ∈ items /\ forall s, item <> JStr s)) ->
  detect_types fuzz_ratio desc w = (sentinel, logged OpenKeywords w).
Proof.
  intros Hfile Hshape.
  assert (Hkw : exists e, fst (keyword_stage (lower desc) w) = inl e).
  { unfold keyword_stage, try_except, load_keywords, bind, lift, ret.
    rewrite Hfile. simpl.
    destruct Hshape as [Hno|(keywords & -> & [Hiter|(items & item & Hfood & Hin & Hitem)])].
    - destruct j; simpl; eauto. by destruct (Hno fields).
    - simpl. unfold call_match_keywords. rewrite Hiter. simpl. eauto.
    - simpl. unfold call_match_keywords. rewrite Hfood. simpl.
      destruct (try_map_fails as_str items item AttributeError Hin) as [e He].
      { destruct item; try done. by destruct (Hitem s). }
      rewrite He. rewrite (try_map_as_str_error _ _ He). simpl. eauto. }
  destruct Hkw as [e Hkw]. by apply (detect_types_keyword_error _ _ _ e).
Qed.

(** * The sheet: rows read and rows written *)

Lemma expense_rows_lookup (values : list (list string)) (row_id : Z)
    (i : nat) (item : list string) :
  values !! i = Some item ->
  expense_rows row_id values !! i =
  Some (ExpenseItem.make (row_id + Z.of_nat i) (cell item 0 "") (cell item 1 "")
          (cell item 2 "") (cell item 3 "") (cell item 4 "") (cell item 5 "")
          (cell item 6 "No")).
Proof.
  revert row_id i. induction values as [|first rest IH]; intros row_id i; [done|].
  destruct i as [|i]; simpl.
  - intros [= ->]. by rewrite Z.add_0_r.
  - intros Hi. rewrite (IH (row_id + 1)%Z i Hi). do 2 f_equal. lia.
Qed.

Lemma expense_rows_length (values : list (list string)) (row_id : Z) :
  length (expense_rows row_id values) = length values.
Proof.
  revert row_id. induction values as [|first rest IH]; intros row_id; simpl; [done|].
  by rewrite IH.
Qed.

Lemma get_expense_data_values (values : list (list string)) :
  get_expense_data (inr values) = inr (expense_rows SHEET_START_ROW values).
Proof. by destruct values. Qed.

(** X14. A successful fetch gives one item per sheet row, in order; the
    item of the i-th row (from 0) has row_id 8 + i, the row of the sheet it
    stands in, takes its fields from the cells that are there, and has ""
    for a missing cell, "No" for a missing bot_identified cell. *)
Theorem X14_expense_items_follow_the_sheet (values : list (list string)) :
  exists exps : list ExpenseItem.t,
    get_expense_data (inr values) = inr exps /\
    length exps = length values /\
    forall (i : nat) (item : list string),
      values !! i = Some item ->
      exps !! i =
      Some (ExpenseItem.make (8 + Z.of_nat i) (cell item 0 "") (cell item 1 "")
              (cell item 2 "") (cell item 3 "") (cell item 4 "") (cell item 5 "")
              (cell item 6 "No")).
Proof.
  exists (expense_rows SHEET_START_ROW values).
  split; [apply get_expense_data_values|]. split; [apply expense_rows_length|].
  intros i item Hi. by apply expense_rows_lookup.
Qed.

Lemma cell_short (item : list string) (i : nat) (default : string) :
  length item <= i -> cell item i default = default.
Proof. intros H. unfold cell. by apply List.nth_overflow. Qed.

(** X15. What makes a fetched row count as classified by a human: its
    fourth and fifth cells are non-empty and its seventh is not "Yes". So a
    row with fewer than five cells never counts, and a row without a
    seventh cell counts as soon as both type cells are filled. *)
Theorem X15_rows_classified_by_a_human
    (values : list (list string)) (exps : list ExpenseItem.t)
    (i : nat) (item : list string) (exp : ExpenseItem.t) :
  get_expense_data (inr values) = inr exps ->
  values !! i = Some item -> exps !! i = Some exp ->
  (human_classified exp = true <->
   cell item 3 "" <> "" /\ cell item 4 "" <> "" /\ cell item 6 "No" <> "Yes") /\
  (length item < 5 -> human_classified exp = false) /\
  (length item < 7 -> cell item 3 "" <> "" -> cell item 4 "" <> "" ->
   human_classified exp = true).
Proof.
  rewrite get_expense_data_values. intros [= <-] Hitem Hexp.
  rewrite (expense_rows_lookup _ _ _ _ Hitem) in Hexp. injection Hexp as <-.
  assert (Hiff : human_classified
            (ExpenseItem.make (SHEET_START_ROW + Z.of_nat i) (cell item 0 "")
               (cell item 1 "") (cell item 2 "") (cell item 3 "") (cell item 4 "")
               (cell item 5 "") (cell item 6 "No")) = true <->
          cell item 3 "" <> "" /\ cell item 4 "" <> "" /\ cell item 6 "No" <> "Yes").
  { by rewrite human_classified_iff. }
  split; [exact Hiff|]. split.
  - intros Hshort. apply not_true_iff_false. rewrite Hiff. intros (_ & Hsub & _).
    apply Hsub, cell_short. lia.
  - intros Hshort Hmain Hsub. apply Hiff. repeat split; [done..|].
    rewrite cell_short by lia. done.
Qed.

(** X16. What [update_google_sheet] sends. With a well-formed cache the
    row handed to the append is one of two: the description came out
    unclassified, and the row has empty type cells and the flag "No"; or it
    has a non-empty main_type and sub_type and the flag "Yes". The value
    returned is the response of the append, or the text of its error. *)
Theorem X16_row_sent_to_the_sheet
    (fuzz_ratio : string -> string -> Z) (response : Type)
    (execute : list json -> api_error + response)
    (date_string amount description user : string) (w : world) :
  cache_ok (_data_cache w) ->
  exists row : list json,
    fst (update_google_sheet fuzz_ratio response None execute
           date_string amount description user w) =
    match execute row with
    | inl e => inl (api_error_text e)
    | inr result => inr result
    end /\
    (row = [JStr date_string; JStr description; JStr amount; JStr ""; JStr "";
            JStr user; JStr "No"] \/
     exists main_type sub_type,
       truthy main_type = true /\ truthy sub_type = true /\
       row = [JStr date_string; JStr description; JStr amount; main_type; sub_type;
              JStr user; JStr "Yes"]).
Proof.
  intros Hok.
  exists (sheet_row date_string description amount user
            (fst (detect_types fuzz_ratio description w))).
  split.
  - unfold update_google_sheet.
    destruct (detect_types fuzz_ratio description w) as [types w']. simpl.
    by destruct (execute _).
  - destruct (detect_types_whole_or_empty fuzz_ratio description w Hok) as [Htypes|Htypes].
    { rewrite Htypes. by left. }
    destruct Htypes as [Hm Hs].
    right. destruct (fst (detect_types fuzz_ratio description w)) as [m s].
    simpl in *. exists m, s. by rewrite Hm.
Qed.

Lemma expense_rows_Forall (P : list string -> Prop) (Q : ExpenseItem.t -> Prop)
    (values : list (list string)) (row_id : Z) :
  (forall id item, P item ->
     Q (ExpenseItem.make id (cell item 0 "") (cell item 1 "") (cell item 2 "")
          (cell item 3 "") (cell item 4 "") (cell item 5 "") (cell item 6 "No"))) ->
  Forall P values -> Forall Q (expense_rows row_id values).
Proof.
  intros HPQ Hall. revert row_id.
  induction Hall as [|item rest Hitem _ IH]; intros row_id; simpl; constructor; auto.
Qed.

(** X17. Rows the bot wrote are not learned from. When every row of the
    sheet is a row as [update_google_sheet] sends it for a classification
    made of two strings, none of the fetched items counts as classified by
    a human, and a refresh has nothing to append for them. *)
Theorem X17_bot_rows_are_not_learned
    (stored : list obj) (values : list (list string)) (exps : list ExpenseItem.t) :
  Forall (fun cells => exists date_string description amount user m s,
            map JStr cells =
            sheet_row date_string description amount user (JStr m, JStr s)) values ->
  get_expense_data (inr values) = inr exps ->
  Forall (fun exp => human_classified exp = false) exps /\
  rows_to_append stored exps = [].
Proof.
  intros Hrows. rewrite get_expense_data_values. intros [= <-].
  assert (Hnone : Forall (fun exp => human_classified exp = false)
                    (expense_rows SHEET_START_ROW values)).
  { apply (expense_rows_Forall _ (fun exp => human_classified exp = false)
             values SHEET_START_ROW) in Hrows; [exact Hrows|].
    intros id cells (date_string & description & amount & user & m & s & Hcells).
    unfold sheet_row in Hcells. simpl in Hcells.
    destruct cells as [|c0 [|c1 [|c2 [|c3 [|c4 [|c5 [|c6 [|c7 cells]]]]]]]];
      simpl in Hcells; try discriminate Hcells.
    injection Hcells as -> -> -> -> -> -> ->.
    unfold human_classified, nonempty, cell. simpl.
    destruct (String.eqb m "") eqn:Hm; simpl; [done|].
    by rewrite andb_false_r. }
  split; [exact Hnone|].
  unfold rows_to_append. apply filter_none. intros exp Hexp [Hhuman _].
  rewrite Forall_forall in Hnone. rewrite (Hnone exp Hexp) in Hhuman. done.
Qed.

(** * Reminders that are still open *)

Lemma subscript_present (rem : obj) (key : string) :
  dict_contains rem key = true -> subscript rem key = inr (obj_get rem key).
Proof.
  unfold dict_contains, subscript, obj_get. by destruct (dict_get rem key).
Qed.

Lemma expense_logged_spec (rem : obj) (valid_expenses : list ExpenseItem.t) :
  reminder_keys rem ->
  expense_logged rem valid_expenses =
  inr (bool_decide
         (Exists (fun exp =>
                    str_eq (ExpenseItem.main_type exp) (obj_get rem "main_type") = true /\
                    str_eq (ExpenseItem.sub_type exp) (obj_get rem "sub_type") = true)
                 valid_expenses)).
Proof.
  intros (Hm & Hs & Hd).
  induction valid_expenses as [|exp rest IH]; cbn [expense_logged].
  - rewrite bool_decide_eq_false_2; [done|]. by intros H; apply Exists_nil in H.
  - rewrite !subscript_present by done.
    destruct (str_eq (ExpenseItem.main_type exp) (obj_get rem "main_type")) eqn:Em.
    + destruct (str_eq (ExpenseItem.sub_type exp) (obj_get rem "sub_type")) eqn:Es.
      * rewrite bool_decide_eq_true_2; [done|]. by apply Exists_cons_hd.
      * rewrite IH. f_equal. apply bool_decide_ext. rewrite Exists_cons.
        split; [tauto|]. intros [[_ H]|H]; [congruence|done].
    + rewrite IH. f_equal. apply bool_decide_ext. rewrite Exists_cons.
      split; [tauto|]. intros [[H _]|H]; [congruence|done].
Qed.

Lemma open_reminders_spec (reminders_list : list obj) (valid_expenses : list ExpenseItem.t) :
  Forall reminder_keys reminders_list ->
  open_reminders reminders_list valid_expenses =
  inr (filter
         (fun rem =>
            ~ Exists (fun exp =>
                        str_eq (ExpenseItem.main_type exp) (obj_get rem "main_type") = true /\
                        str_eq (ExpenseItem.sub_type exp) (obj_get rem "sub_type") = true)
                     valid_expenses)
         reminders_list).
Proof.
  induction 1 as [|rem rest Hrem _ IH]; simpl; [done|].
  rewrite (expense_logged_spec rem valid_expenses Hrem), IH.
  case_bool_decide as Hfound.
  - rewrite filter_cons_False; [done|]. tauto.
  - by rewrite filter_cons_True.
Qed.

Lemma silenced_by_valid (rem : obj) (exp_list : list ExpenseItem.t) :
  Exists (fun exp =>
            str_eq (ExpenseItem.main_type exp) (obj_get rem "main_type") = true /\
            str_eq (ExpenseItem.sub_type exp) (obj_get rem "sub_type") = true)
         (filter (fun exp => ExpenseItem.main_type exp <> "" /\
                             ExpenseItem.sub_type exp <> "") exp_list) <->
  Exists (silenced_by rem) exp_list.
Proof.
  rewrite !Exists_exists. unfold silenced_by. split.
  - intros (exp & Hin & Hm & Hs). apply list_elem_of_filter in Hin as [[? ?] Hin].
    exists exp. tauto.
  - intros (exp & Hin & ? & ? & ? & ?). exists exp.
    split; [|tauto]. apply list_elem_of_filter. tauto.
Qed.

(** X18. For reminders that carry main_type, sub_type and desc, and a
    fetched list of expenses, [active_reminders] returns, in order, the
    reminders that no expense silences: a reminder is dropped exactly when
    some expense with a non-empty main_type and sub_type has the
    reminder's main_type and sub_type. *)
Theorem X18_open_reminders_are_the_unsilenced
    (reminders_list : list obj) (exp_list : list ExpenseItem.t) :
  Forall reminder_keys reminders_list ->
  active_reminders reminders_list (inr exp_list) =
  inr (filter (fun rem => ~ Exists (silenced_by rem) exp_list) reminders_list).
Proof.
  intros Hkeys. unfold active_reminders.
  destruct reminders_list as [|rem rest]; [done|].
  rewrite open_reminders_spec by done. f_equal.
  apply list_filter_iff. intros rem'. by rewrite silenced_by_valid.
Qed.

Lemma api_error_text_not_empty (e : api_error) : api_error_text e <> "".
Proof. by destruct e. Qed.

(** X19. When reminders are due and the sheet could not be fetched,
    [active_reminders] does not return: the error text of
    [get_expense_data] is iterated as if it were the list of expenses, and
    its first character has no main_type. *)
Theorem X19_failed_fetch_raises_in_active_reminders
    (reminders_list : list obj) (e : api_error) :
  reminders_list <> [] ->
  active_reminders reminders_list (get_expense_data (inl e)) = inl StrAttributeError.
Proof.
  intros Hdue. unfold active_reminders.
  destruct reminders_list as [|rem rest]; [done|].
  by destruct e.
Qed.

(** X20. The keys of a reminder are read only when there is something to
    compare with. With no expense carrying both types every due reminder
    is returned, whatever its keys; with one such expense, a first reminder
    without main_type raises KeyError. *)
Theorem X20_reminder_keys_read_lazily
    (reminders_list : list obj) (exp_list : list ExpenseItem.t) :
  (Forall (fun exp => ExpenseItem.main_type exp = "" \/ ExpenseItem.sub_type exp = "")
          exp_list ->
   active_reminders reminders_list (inr exp_list) = inr reminders_list) /\
  (forall rem rest exp,
     reminders_list = rem :: rest -> dict_get rem "main_type" = None ->
     exp ∈ exp_list ->
     ExpenseItem.main_type exp <> "" -> ExpenseItem.sub_type exp <> "" ->
     active_reminders reminders_list (inr exp_list) = inl (KeyError "main_type")).
Proof.
  split.
  - intros Hnone. unfold active_reminders.
    destruct reminders_list as [|rem rest]; [done|].
    rewrite filter_none.
    + generalize (rem :: rest). intros l.
      induction l as [|r l IH]; simpl; [done|]. by rewrite IH.
    + intros exp Hexp [Hm Hs]. rewrite Forall_forall in Hnone.
      destruct (Hnone exp Hexp); done.
  - intros rem rest exp -> Hkey Hexp Hm Hs. unfold active_reminders.
    assert (Hin : exp ∈ filter (fun exp => ExpenseItem.main_type exp <> "" /\
                                           ExpenseItem.sub_type exp <> "") exp_list).
    { by apply list_elem_of_filter. }
    destruct (filter _ exp_list) as [|first valid]; [by apply elem_of_nil in Hin|].
    simpl. unfold subscript. by rewrite Hkey.
Qed.

(** * Reminders that are due *)

Example py_int_plain : py_int "15" = Some 15%Z.
Proof. vm_compute. reflexivity. Qed.

Example py_int_padded : py_int "  -7 " = Some (-7)%Z.
Proof. vm_compute. reflexivity. Qed.

Example py_int_underscore : py_int "1_000" = Some 1000%Z.
Proof. vm_compute. reflexivity. Qed.

Example py_int_rejects :
  py_int "" = None /\ py_int "1 0" = None /\ py_int "1__0" = None /\
  py_int "_1" = None /\ py_int "ten" = None /\ py_int "+-1" = None.
Proof. vm_compute. repeat split. Qed.

Example split_on_dash : split_on "-" "1--5" = ["1"; ""; "5"].
Proof. vm_compute. reflexivity. Qed.

Lemma scan_reminders_sound (today : Z) (reminders : list json) (o : obj) :
  o ∈ scan_reminders today reminders ->
  JObj o ∈ reminders /\ in_date_range today (JObj o) = Some (Some o).
Proof.
  induction reminders as [|rem rest IH]; simpl; [by intros H; apply elem_of_nil in H|].
  destruct (in_date_range today rem) as [[o'|]|] eqn:Hrem.
  - intros H. apply elem_of_cons in H as [->|H].
    + assert (rem = JObj o') as ->.
      { unfold in_date_range in Hrem. destruct rem; try done.
        destruct (obj_get_default fields "date_range" (JStr "")); try done.
        - destruct (contains_char _ _); [|done].
          destruct (try_ints _) as [[|a [|b [|c l]]]|]; try done.
          destruct (_ && _); [|done]. by injection Hrem as ->.
        - by destruct (existsb is_separator items).
        - by destruct (dict_contains _ _). }
      split; [apply list_elem_of_here|done].
    + destruct (IH H) as [Hin Hhit]. split; [by apply list_elem_of_further|done].
  - intros H. destruct (IH H) as [Hin Hhit]. split; [by apply list_elem_of_further|done].
  - by intros H; apply elem_of_nil in H.
Qed.

Lemma in_date_range_hit (today : Z) (o : obj) :
  in_date_range today (JObj o) = Some (Some o) ->
  exists date_range _start _end,
    obj_get_default o "date_range" (JStr "") = JStr date_range /\
    try_ints (split_on REMINDER_DATE_RANGE_SEPARATOR date_range) = Some [_start; _end] /\
    (_start <= today <= _end)%Z.
Proof.
  unfold in_date_range.
  destruct (obj_get_default o "date_range" (JStr "")) as [| | |date_range|items|fields];
    try done.
  - destruct (contains_char _ _); [|done].
    destruct (try_ints _) as [[|a [|b [|c l]]]|] eqn:Hints; try done.
    destruct (_ && _) eqn:E; [|done]. intros _.
    apply andb_true_iff in E as [Ha Hb]. apply Z.leb_le in Ha, Hb.
    exists date_range, a, b. split; [done|]. split; [done|lia].
  - by destruct (existsb is_separator items).
  - by destruct (dict_contains _ _).
Qed.

(** X21. Whatever config.reminders_json holds, every reminder
    [applicable_reminders] returns is an object of that file whose
    date_range is a string that splits at "-" into exactly two integers
    with today's day of the month between them, both ends included. *)
Theorem X21_applicable_reminders_are_due
    (reminders_json : file_state) (today : Z) (o : obj) :
  o ∈ applicable_reminders reminders_json today ->
  (exists reminders items,
     reminders_json = Content reminders /\ py_iter reminders = inr items /\
     JObj o ∈ items) /\
  exists date_range _start _end,
    obj_get_default o "date_range" (JStr "") = JStr date_range /\
    try_ints (split_on "-" date_range) = Some [_start; _end] /\
    (_start <= today <= _end)%Z.
Proof.
  unfold applicable_reminders.
  destruct reminders_json as [| |reminders]; simpl;
    try by intros H; apply elem_of_nil in H.
  destruct (py_iter reminders) as [e|items] eqn:Hiter;
    [by intros H; apply elem_of_nil in H|].
  intros H. apply scan_reminders_sound in H as [Hin Hhit]. split.
  - by exists reminders, items.
  - by apply in_date_range_hit.
Qed.

Lemma scan_reminders_stops (today : Z) (pre post : list json) (bad : json) :
  Forall (fun rem => in_date_range today rem <> None) pre ->
  in_date_range today bad = None ->
  scan_reminders today (pre ++ bad :: post) = scan_reminders today pre.
Proof.
  intros Hpre Hbad. induction Hpre as [|rem pre Hrem _ IH]; simpl.
  - by rewrite Hbad.
  - destruct (in_date_range today rem) as [[o|]|]; [by rewrite IH|done|done].
Qed.

(** X22. The scan stops at the first reminder that raises (one that is no
    object, or whose date_range holds the separator without being two
    integers around it): the call returns what a file ending just before
    that reminder would have given, and no reminder after it, due or not. *)
Theorem X22_malformed_reminder_hides_later_ones
    (today : Z) (pre post : list json) (bad : json) :
  Forall (fun rem => in_date_range today rem <> None) pre ->
  in_date_range today bad = None ->
  applicable_reminders (Content (JArr (pre ++ bad :: post))) today =
  applicable_reminders (Content (JArr pre)) today.
Proof.
  intros Hpre Hbad. unfold applicable_reminders. simpl.
  by apply scan_reminders_stops.
Qed.

Lemma append_nil_l (x : string) : "" +:+ x = x.
Proof. reflexivity. Qed.

Lemma append_cons (c : ascii) (w x : string) : String c w +:+ x = String c (w +:+ x).
Proof. reflexivity. Qed.

Lemma append_snoc (w a : string) (c : ascii) :
  (w +:+ String c "") +:+ a = w +:+ String c a.
Proof.
  induction w as [|c' w IH]; [done|].
  by rewrite !append_cons, IH.
Qed.

Lemma append_empty_r (w : string) : w +:+ "" = w.
Proof.
  induction w as [|c w IH]; [done|].
  by rewrite append_cons, IH.
Qed.

Lemma split_on_from_plain (sep : ascii) (word s : string) :
  contains_char sep s = false -> split_on_from sep word s = [word +:+ s].
Proof.
  revert word. induction s as [|c s IH]; intros word; simpl.
  - by rewrite append_empty_r.
  - intros H. apply orb_false_iff in H as [Hc Hs]. rewrite Hc.
    rewrite IH by done. by rewrite append_snoc.
Qed.

Lemma split_on_from_two (sep : ascii) (word a b : string) :
  contains_char sep a = false -> contains_char sep b = false ->
  split_on_from sep word (a +:+ String sep b) = [word +:+ a; b].
Proof.
  revert word. induction a as [|c a IH]; intros word.
  - intros _ Hb. rewrite append_nil_l. simpl.
    rewrite Ascii.eqb_refl, append_empty_r.
    by rewrite (split_on_from_plain sep "" b Hb).
  - intros H Hb. simpl in H. apply orb_false_iff in H as [Hc Ha].
    rewrite append_cons. simpl. rewrite Hc.
    rewrite IH by done. by rewrite append_snoc.
Qed.

Lemma contains_char_joined (sep : ascii) (a b : string) :
  contains_char sep (a +:+ String sep b) = true.
Proof.
  induction a as [|c a IH].
  - rewrite append_nil_l. simpl. by rewrite Ascii.eqb_refl.
  - rewrite append_cons. simpl. rewrite IH. apply orb_true_r.
Qed.

Lemma in_date_range_dated (today : Z) (o : obj) (first last : Z) :
  dated o first last ->
  in_date_range today (JObj o) =
  Some (if (first <=? today)%Z && (today <=? last)%Z then Some o else None).
Proof.
  intros (a & b & Hrange & Ha & Hb & Hfirst & Hlast).
  unfold in_date_range, REMINDER_DATE_RANGE_SEPARATOR. rewrite Hrange.
  rewrite contains_char_joined. unfold split_on.
  rewrite split_on_from_two by done. rewrite append_nil_l.
  cbn [try_ints]. by rewrite Hfirst, Hlast.
Qed.

Lemma in_date_range_undated (today : Z) (o : obj) :
  undated o -> in_date_range today (JObj o) = Some None.
Proof.
  intros (s & Hrange & Hs).
  unfold in_date_range, REMINDER_DATE_RANGE_SEPARATOR. by rewrite Hrange, Hs.
Qed.

Lemma scan_reminders_complete (today : Z) (reminders : list json) (o : obj) :
  Forall (fun rem => in_date_range today rem <> None) reminders ->
  JObj o ∈ reminders -> in_date_range today (JObj o) = Some (Some o) ->
  o ∈ scan_reminders today reminders.
Proof.
  intros Hall Hin Hhit. induction Hall as [|rem rest Hrem _ IH]; simpl.
  - by apply elem_of_nil in Hin.
  - apply elem_of_cons in Hin as [<-|Hin].
    + rewrite Hhit. apply list_elem_of_here.
    + destruct (in_date_range today rem) as [[o'|]|]; [|by apply IH|done].
      apply list_elem_of_further. by apply IH.
Qed.

(** X23. For a reminders file that is a list of objects, each with a
    date_range that is missing, or a string without "-", or two integers
    joined by one "-": a reminder is returned exactly when it is of the
    last kind and today's day of the month lies between its two integers,
    ends included. *)
Theorem X23_reminders_due_between_their_days
    (today : Z) (records : list obj) (o : obj) :
  Forall (fun o' => undated o' \/ exists first last, dated o' first last) records ->
  o ∈ applicable_reminders (Content (JArr (map JObj records))) today <->
  o ∈ records /\ exists first last, dated o first last /\ (first <= today <= last)%Z.
Proof.
  intros Hall. unfold applicable_reminders. simpl. split.
  - intros H. apply scan_reminders_sound in H as [Hin Hhit].
    apply list_elem_of_fmap in Hin as (o' & [= <-] & Hin).
    split; [done|]. rewrite Forall_forall in Hall.
    destruct (Hall o Hin) as [Hun|(first & last & Hd)].
    + by rewrite (in_date_range_undated today o Hun) in Hhit.
    + rewrite (in_date_range_dated today o first last Hd) in Hhit.
      exists first, last. split; [done|].
      destruct (_ && _) eqn:E; [|done].
      apply andb_true_iff in E as [Ha Hb]. apply Z.leb_le in Ha, Hb. lia.
  - intros (Hin & first & last & Hd & Hfirst & Hlast).
    apply scan_reminders_complete.
    + apply Forall_forall. intros rem Hrem.
      apply list_elem_of_fmap in Hrem as (o' & -> & Ho').
      rewrite Forall_forall in Hall.
      destruct (Hall o' Ho') as [Hun|(f' & l' & Hd')].
      * by rewrite (in_date_range_undated today o' Hun).
      * by rewrite (in_date_range_dated today o' f' l' Hd').
    + apply list_elem_of_fmap. by exists o.
    + rewrite (in_date_range_dated today o first last Hd).
      by rewrite (proj2 (Z.leb_le _ _) Hfirst), (proj2 (Z.leb_le _ _) Hlast).
Qed.

(** * Who may talk to the bot *)

Lemma load_user_configuration_shape (env : environ) (config : user_config) :
  load_user_configuration env = Some config ->
  ids_allowed_to_chat_with_bot config =
    map user_id (filter (fun u => user_id u <> 0%Z) (users config)) /\
  is_local config = String.eqb (lower (env_get env "local" "false")) "true" /\
  ((is_local config && nonempty (env_get env "LOCAL_TEST_USER_ID" "") = true /\
    exists test_user_id,
      py_int (env_get env "LOCAL_TEST_USER_ID" "") = Some test_user_id /\
      users config =
      [mkUser test_user_id (env_get env "LOCAL_TEST_USER_NAME" "Test User")]) \/
   (is_local config && nonempty (env_get env "LOCAL_TEST_USER_ID" "") = false /\
    ((nonempty (env_get env "ALLOWED_USER_IDS" "") &&
      nonempty (env_get env "ALLOWED_USER_NAMES" "") = false /\ users config = []) \/
     (exists user_ids,
        try_ints (comma_parts (env_get env "ALLOWED_USER_IDS" "")) = Some user_ids /\
        users config =
        if (length user_ids =?
            length (comma_parts (env_get env "ALLOWED_USER_NAMES" "")))%nat
        then zip_with mkUser user_ids
               (comma_parts (env_get env "ALLOWED_USER_NAMES" ""))
        else [])))).
Proof.
  unfold load_user_configuration.
  destruct (nonempty (env_get env "ALLOWED_USER_IDS" "") &&
            nonempty (env_get env "ALLOWED_USER_NAMES" "")) eqn:Hset.
  - destruct (try_ints (comma_parts (env_get env "ALLOWED_USER_IDS" "")))
      as [user_ids|] eqn:Hids; [|done].
    destruct (String.eqb (lower (env_get env "local" "false")) "true" &&
              nonempty (env_get env "LOCAL_TEST_USER_ID" "")) eqn:Hlocal.
    + destruct (py_int (env_get env "LOCAL_TEST_USER_ID" "")) as [id|] eqn:Hid; [|done].
      intros [= <-]. simpl. split; [done|]. split; [done|]. left. eauto.
    + intros [= <-]. simpl. split; [done|]. split; [done|]. right.
      split; [done|]. right. eauto.
  - destruct (String.eqb (lower (env_get env "local" "false")) "true" &&
              nonempty (env_get env "LOCAL_TEST_USER_ID" "")) eqn:Hlocal.
    + destruct (py_int (env_get env "LOCAL_TEST_USER_ID" "")) as [id|] eqn:Hid; [|done].
      intros [= <-]. simpl. split; [done|]. split; [done|]. left. eauto.
    + intros [= <-]. simpl. split; [done|]. split; [done|]. right.
      split; [done|]. by left.
Qed.

Lemma try_ints_elem_of (parts : list string) (ns : list Z) (n : Z) :
  try_ints parts = Some ns -> n ∈ ns ->
  exists p, p ∈ parts /\ py_int p = Some n.
Proof.
  revert ns. induction parts as [|p parts IH]; simpl; intros ns.
  - intros [= <-] Hn. by apply elem_of_nil in Hn.
  - destruct (py_int p) as [m|] eqn:Hp; [|done].
    destruct (try_ints parts) as [ms|]; [|done].
    intros [= <-] Hn. apply elem_of_cons in Hn as [->|Hn].
    + exists p. split; [apply list_elem_of_here|done].
    + destruct (IH ms eq_refl Hn) as (q & Hq & Hint).
      exists q. split; [by apply list_elem_of_further|done].
Qed.

Lemma zip_with_user_id (ids : list Z) (names : list string) (u : bot_user) :
  u ∈ zip_with mkUser ids names -> user_id u ∈ ids.
Proof.
  revert names. induction ids as [|id ids IH]; intros [|name names]; simpl;
    try by intros H; apply elem_of_nil in H.
  intros H. apply elem_of_cons in H as [->|H].
  - apply list_elem_of_here.
  - apply list_elem_of_further. by apply (IH names).
Qed.

Lemma comma_parts_elem_of (s p : string) :
  p ∈ comma_parts s -> exists part, part ∈ split_on "," s /\ p = strip part.
Proof.
  unfold comma_parts. intros H.
  apply list_elem_of_fmap in H as (part & -> & Hpart).
  apply list_elem_of_filter in Hpart as [_ Hpart]. eauto.
Qed.

(** X24. The ids that may talk to the bot, for a configuration that
    loaded. The id 0 is never among them, so [restricted] turns user 0
    away whatever the environment says. Outside local mode every allowed id
    is the integer of one comma-separated piece of ALLOWED_USER_IDS. *)
Theorem X24_allowed_ids_come_from_the_environment
    (A : Type) (func : Z -> A) (env : environ) (config : user_config) :
  load_user_configuration env = Some config ->
  (0%Z ∉ ids_allowed_to_chat_with_bot config) /\
  restricted config func 0 = None /\
  (is_local config = false ->
   forall id, id ∈ ids_allowed_to_chat_with_bot config ->
     exists part,
       part ∈ split_on "," (env_get env "ALLOWED_USER_IDS" "") /\
       py_int (strip part) = Some id).
Proof.
  intros Hload.
  destruct (load_user_configuration_shape env config Hload) as (Hids & Hlocal & Husers).
  assert (Hzero : 0%Z ∉ ids_allowed_to_chat_with_bot config).
  { rewrite Hids. intros H. apply list_elem_of_fmap in H as (u & Hu & Hin).
    apply list_elem_of_filter in Hin as [Hne _]. congruence. }
  split; [done|]. split.
  - unfold restricted. by rewrite bool_decide_eq_false_2.
  - intros Hnot id Hid. rewrite Hids in Hid.
    apply list_elem_of_fmap in Hid as (u & -> & Hu).
    apply list_elem_of_filter in Hu as [_ Hu].
    destruct Husers as [[Hyes _]|[_ [[_ Hnone]|(user_ids & Hints & Hzip)]]].
    + by rewrite Hnot in Hyes.
    + rewrite Hnone in Hu. by apply elem_of_nil in Hu.
    + rewrite Hzip in Hu. destruct (_ =? _)%nat; [|by apply elem_of_nil in Hu].
      apply zip_with_user_id in Hu.
      destruct (try_ints_elem_of _ _ _ Hints Hu) as (p & Hp & Hint).
      apply comma_parts_elem_of in Hp as (part & Hpart & ->). eauto.
Qed.

Lemma try_ints_length (parts : list string) (ns : list Z) :
  try_ints parts = Some ns -> length ns = length parts.
Proof.
  revert ns. induction parts as [|p parts IH]; simpl; intros ns.
  - by intros [= <-].
  - destruct (py_int p); [|done]. destruct (try_ints parts) as [ms|]; [|done].
    intros [= <-]. simpl. by rewrite (IH ms).
Qed.

(** X25. Outside local mode nobody may talk to the bot when
    ALLOWED_USER_IDS or ALLOWED_USER_NAMES is unset or empty, or when the
    two lists do not have the same number of non-blank pieces: the list of
    allowed ids is empty and [restricted] turns every user away. *)
Theorem X25_mismatched_lists_allow_nobody
    (A : Type) (func : Z -> A) (env : environ) (config : user_config) :
  load_user_configuration env = Some config ->
  is_local config = false ->
  env_get env "ALLOWED_USER_IDS" "" = "" \/
  env_get env "ALLOWED_USER_NAMES" "" = "" \/
  length (comma_parts (env_get env "ALLOWED_USER_IDS" "")) <>
  length (comma_parts (env_get env "ALLOWED_USER_NAMES" "")) ->
  ids_allowed_to_chat_with_bot config = [] /\
  forall id, restricted config func id = None.
Proof.
  intros Hload Hnot Hbad.
  destruct (load_user_configuration_shape env config Hload) as (Hids & Hlocal & Husers).
  assert (Hnone : users config = []).
  { destruct Husers as [[Hyes _]|[_ [[_ Hnone]|(user_ids & Hints & Hzip)]]].
    - by rewrite Hnot in Hyes.
    - done.
    - rewrite Hzip. destruct (_ =? _)%nat eqn:Hlen; [|done].
      apply Nat.eqb_eq in Hlen.
      destruct Hbad as [Hempty|[Hempty|Hne]].
      + rewrite Hempty in Hints. vm_compute in Hints. by injection Hints as <-.
      + rewrite Hempty in Hlen |- *. vm_compute in Hlen.
        by destruct user_ids.
      + by rewrite (try_ints_length _ _ Hints) in Hlen. }
  assert (Hallowed : ids_allowed_to_chat_with_bot config = []).
  { by rewrite Hids, Hnone. }
  split; [done|]. intros id. unfold restricted. rewrite Hallowed.
  rewrite bool_decide_eq_false_2; [done|]. apply not_elem_of_nil.
Qed.

(** X26. In local mode with LOCAL_TEST_USER_ID set, the users of the
    environment are replaced by the test user alone: [restricted] lets a
    handler run for that id, when it is not 0, and for no other. *)
Theorem X26_local_test_user_replaces_the_others
    (A : Type) (func : Z -> A) (env : environ) (config : user_config) :
  load_user_configuration env = Some config ->
  is_local config = true ->
  env_get env "LOCAL_TEST_USER_ID" "" <> "" ->
  exists test_user_id,
    py_int (env_get env "LOCAL_TEST_USER_ID" "") = Some test_user_id /\
    users config =
      [mkUser test_user_id (env_get env "LOCAL_TEST_USER_NAME" "Test User")] /\
    forall id, restricted config func id =
               if bool_decide (id = test_user_id /\ id <> 0%Z)
               then Some (func id) else None.
Proof.
  intros Hload Hyes Hset.
  destruct (load_user_configuration_shape env config Hload) as (Hids & Hlocal & Husers).
  assert (Hne : nonempty (env_get env "LOCAL_TEST_USER_ID" "") = true).
  { unfold nonempty. apply negb_true_iff. by apply String.eqb_neq. }
  destruct Husers as [[_ (test_user_id & Hint & Husers)]|[Hno _]].
  2:{ by rewrite Hyes, Hne in Hno. }
  exists test_user_id. split; [done|]. split; [done|].
  intros id. unfold restricted. rewrite Hids, Husers.
  destruct (decide (test_user_id = 0%Z)) as [->|Hnz].
  - rewrite filter_cons_False by (simpl; tauto). rewrite filter_nil. cbn [List.map].
    rewrite (bool_decide_eq_false_2 (id ∈ [])) by apply not_elem_of_nil.
    rewrite bool_decide_eq_false_2; [done|]. intros [-> ?]. done.
  - rewrite filter_cons_True by done. rewrite filter_nil. cbn [List.map user_id].
    apply (f_equal (fun b : bool => if b then Some (func id) else None)).
    apply bool_decide_ext. rewrite list_elem_of_singleton.
    split; [intros ->; done|tauto].
Qed.

Lemma try_ints_fails (parts : list string) (p : string) :
  p ∈ parts -> py_int p = None -> try_ints parts = None.
Proof.
  intros Hin Hp. induction parts as [|q parts IH]; [by apply elem_of_nil in Hin|].
  simpl. apply elem_of_cons in Hin as [<-|Hin].
  - by rewrite Hp.
  - destruct (py_int q); [|done]. by rewrite (IH Hin).
Qed.

(** X27. When both lists are set and a non-blank piece of
    ALLOWED_USER_IDS is not an integer, the configuration does not load:
    the ValueError of [int] leaves the constructor. *)
Theorem X27_id_that_is_no_integer
    (env : environ) (piece : string) :
  env_get env "ALLOWED_USER_IDS" "" <> "" ->
  env_get env "ALLOWED_USER_NAMES" "" <> "" ->
  piece ∈ comma_parts (env_get env "ALLOWED_USER_IDS" "") ->
  py_int piece = None ->
  load_user_configuration env = None.
Proof.
  intros Hids Hnames Hpiece Hint. unfold load_user_configuration, nonempty.
  apply String.eqb_neq in Hids, Hnames. rewrite Hids, Hnames. simpl.
  by rewrite (try_ints_fails _ piece Hpiece Hint).
Qed.

(** * The further properties at concrete inputs *)

Lemma stale_cache_ok : cache_ok (_data_cache stale_cache_world).
Proof.
  repeat constructor. exists "Taxi". split; reflexivity.
Defined.

Lemma X1_witness :
  cache_ok (_data_cache stale_cache_world) /\
  cache_ok (_data_cache
              (snd (refresh_types_data sample_str (inr sample_rows) (inr tt)
                      stale_cache_world))).
Proof.
  split; [exact stale_cache_ok|].
  exact (proj1 (proj2 (X1_cache_entries_stay_well_formed indel_ratio sample_str
                         (inr sample_rows) (inr tt) "Taxi" stale_cache_world
                         stale_cache_ok))).
Defined.

Lemma X2_witness :
  fst (detect_types indel_ratio "Taxi" stale_cache_world) = sentinel \/
  (truthy (fst (fst (detect_types indel_ratio "Taxi" stale_cache_world))) = true /\
   truthy (snd (fst (detect_types indel_ratio "Taxi" stale_cache_world))) = true).
Proof.
  exact (X2_classification_is_whole_or_empty indel_ratio "Taxi" stale_cache_world
           stale_cache_ok).
Defined.

Lemma X6_witness :
  types_data_json broken_store_world = BadJson /\
  refresh_types_data sample_str (inr sample_rows) (inr tt) broken_store_world =
  (mkStatus "error" "JSON error: Expecting value: line 1 column 1 (char 0)",
   logged OpenTypesData broken_store_world).
Proof.
  split; [reflexivity|].
  apply (X6_refresh_leaves_unparseable_store sample_str sample_rows (inr tt)
           broken_store_world).
  reflexivity.
Defined.

Lemma X7_witness :
  fst (refresh_types_data sample_str (inr sample_rows) (inl OtherException)
         stale_cache_world) = mkStatus "error" "error" /\
  types_data_json
    (snd (refresh_types_data sample_str (inr sample_rows) (inl OtherException)
            stale_cache_world)) =
  Content (JArr [JObj (record "Coffee" "Food" "Beverages");
                 JObj (record "Tea" "Food" "Beverages")]).
Proof.
  destruct (X7_refresh_status_follows_reminders sample_str sample_rows
              (inl OtherException) stale_cache_world
              [record "Coffee" "Food" "Beverages"]) as (Hstatus & _ & Hstore).
  - right. reflexivity.
  - repeat constructor. eexists. reflexivity.
  - split; [exact Hstatus|]. rewrite Hstore. vm_compute. reflexivity.
Defined.

Lemma X8_witness :
  fst (detect_types indel_ratio "TEA"
         (snd (refresh_types_data sample_str (inr sample_rows) (inr tt)
                 stale_cache_world))) =
  (JStr "Food", JStr "Beverages").
Proof.
  apply (X8_refresh_teaches_the_classifier indel_ratio sample_str sample_rows (inr tt)
           stale_cache_world [record "Coffee" "Food" "Beverages"] [] []
           (ExpenseItem.make 8 "24/07" "Tea" "20" "Food" "Beverages" "Test" "No") "TEA").
  - right. reflexivity.
  - repeat constructor. eexists. reflexivity.
  - vm_compute. reflexivity.
  - constructor.
  - vm_compute. reflexivity.
  - vm_compute. reflexivity.
Defined.

Lemma X9_witness :
  fst (detect_types indel_ratio "Coffee" coffee_store) =
  (JStr "Food", JStr "Outside Food/Dining/Snacks").
Proof.
  apply (X9_stored_record_decides_classification indel_ratio "Coffee" coffee_store
           [record "Coffee" "Food" "Beverages"; record "Taxi" "" "Cab"] []
           (record "COFFEE" "Food" "Outside Food/Dining/Snacks") "COFFEE").
  - reflexivity.
  - reflexivity.
  - repeat constructor; intros _; eexists; reflexivity.
  - reflexivity.
  - reflexivity.
  - constructor.
  - vm_compute. reflexivity.
  - reflexivity.
Defined.

Lemma X10_witness :
  fst (get_types_data nameless_store) = inr tt /\
  _data_cache (snd (get_types_data nameless_store)) =
  [("coffee", record "Coffee" "Food" "Beverages")].
Proof.
  destruct (X10_load_stops_at_record_without_desc nameless_store
              [record "Coffee" "Food" "Beverages"] [record "Tea" "Food" "Beverages"]
              nameless_record) as [Hret Hcache].
  - reflexivity.
  - reflexivity.
  - repeat constructor. intros _. eexists. reflexivity.
  - reflexivity.
  - intros [s Hs]. discriminate Hs.
  - split; [exact Hret|]. rewrite Hcache. vm_compute. reflexivity.
Defined.

Lemma X11_witness :
  _data_cache (snd (get_types_data mixed_store)) = [] /\
  snd (refresh_types_data sample_str (inr sample_rows) (inr tt) mixed_store) =
  logged OpenTypesData mixed_store.
Proof.
  destruct (X11_store_item_that_is_no_record sample_str sample_rows (inr tt) mixed_store
              [JObj (record "Coffee" "Food" "Beverages"); JStr "Tea"] (JStr "Tea"))
    as (Hload & _ & Hrefresh).
  - reflexivity.
  - apply list_elem_of_further, list_elem_of_here.
  - intros o H. discriminate H.
  - split; [by apply Hload|exact Hrefresh].
Defined.

Lemma X13_witness :
  detect_types indel_ratio "pizza" list_keywords_world =
  (sentinel, logged OpenKeywords list_keywords_world).
Proof.
  apply (X13_keywords_of_wrong_shape indel_ratio "pizza" list_keywords_world
           (JArr [JStr "pizza"])).
  - reflexivity.
  - left. intros keywords H. discriminate H.
Defined.

Lemma X15_witness :
  human_classified
    (ExpenseItem.make 8 "24/07" "Coffee" "150" "Food" "Beverages" "" "No") = true /\
  human_classified (ExpenseItem.make 9 "24/07" "Bus" "30" "" "" "" "No") = false.
Proof.
  split.
  - apply (proj2 (proj2 (X15_rows_classified_by_a_human sample_values
                           (expense_rows 8 sample_values) 0
                           ["24/07"; "Coffee"; "150"; "Food"; "Beverages"] _
                           eq_refl eq_refl eq_refl))); [simpl; lia|done|done].
  - apply (proj1 (proj2 (X15_rows_classified_by_a_human sample_values
                           (expense_rows 8 sample_values) 1
                           ["24/07"; "Bus"; "30"] _ eq_refl eq_refl eq_refl))).
    simpl. lia.
Defined.

Lemma X16_witness :
  exists row : list json,
    fst (update_google_sheet indel_ratio unit None (fun _ => inr tt)
           "24/07/2025" "80" "Taxi" "Test" stale_cache_world) =
    match (inr tt : api_error + unit) with
    | inl e => inl (api_error_text e)
    | inr result => inr result
    end /\
    (row = [JStr "24/07/2025"; JStr "Taxi"; JStr "80"; JStr ""; JStr "";
            JStr "Test"; JStr "No"] \/
     exists main_type sub_type,
       truthy main_type = true /\ truthy sub_type = true /\
       row = [JStr "24/07/2025"; JStr "Taxi"; JStr "80"; main_type; sub_type;
              JStr "Test"; JStr "Yes"]).
Proof.
  exact (X16_row_sent_to_the_sheet indel_ratio unit (fun _ => inr tt)
           "24/07/2025" "80" "Taxi" "Test" stale_cache_world stale_cache_ok).
Defined.

Lemma X17_witness :
  rows_to_append [] (expense_rows 8 bot_values) = [].
Proof.
  apply (X17_bot_rows_are_not_learned [] bot_values (expense_rows 8 bot_values)).
  - repeat constructor.
    + exists "24/07/2025", "pizza", "250", "Test", "Food", "Outside Food/Dining/Snacks".
      reflexivity.
    + exists "24/07/2025", "xyz123", "10", "Test", "", "". reflexivity.
  - reflexivity.
Defined.

Lemma sample_reminder_keys : Forall reminder_keys sample_reminders.
Proof. repeat constructor. Defined.

Lemma X18_witness :
  active_reminders sample_reminders (inr sample_rows) =
  inr [reminder "House rent" "Household" "Rent" "1-5"].
Proof.
  rewrite (X18_open_reminders_are_the_unsilenced sample_reminders sample_rows
             sample_reminder_keys).
  vm_compute. reflexivity.
Defined.

Lemma X19_witness :
  active_reminders sample_reminders (get_expense_data (inl (HttpError "503"))) =
  inl StrAttributeError.
Proof.
  apply X19_failed_fetch_raises_in_active_reminders. discriminate.
Defined.

Lemma X20_witness :
  active_reminders [nameless_record]
    (inr [ExpenseItem.make 9 "24/07" "Bus" "30" "" "" "" "No"]) =
  inr [nameless_record].
Proof.
  apply (proj1 (X20_reminder_keys_read_lazily [nameless_record]
                  [ExpenseItem.make 9 "24/07" "Bus" "30" "" "" "" "No"])).
  constructor; [left; reflexivity|constructor].
Defined.

Lemma X21_witness :
  exists date_range _start _end,
    obj_get_default (reminder "Tea fund" "Food" "Beverages" "1-31") "date_range"
      (JStr "") = JStr date_range /\
    try_ints (split_on "-" date_range) = Some [_start; _end] /\
    (_start <= 7 <= _end)%Z.
Proof.
  apply (X21_applicable_reminders_are_due
           (Content (JArr (map JObj sample_reminders))) 7
           (reminder "Tea fund" "Food" "Beverages" "1-31")).
  vm_compute. constructor.
Defined.

Lemma X22_witness :
  applicable_reminders
    (Content (JArr [JObj (reminder "House rent" "Household" "Rent" "1-5");
                    JObj (reminder "Card" "Bills" "Card" "10-x");
                    JObj (reminder "Tea fund" "Food" "Beverages" "1-31")])) 3 =
  [reminder "House rent" "Household" "Rent" "1-5"].
Proof.
  transitivity (applicable_reminders
                  (Content (JArr [JObj (reminder "House rent" "Household" "Rent" "1-5")]))
                  3).
  - apply (X22_malformed_reminder_hides_later_ones 3
             [JObj (reminder "House rent" "Household" "Rent" "1-5")]
             [JObj (reminder "Tea fund" "Food" "Beverages" "1-31")]
             (JObj (reminder "Card" "Bills" "Card" "10-x"))).
    + constructor; [vm_compute; discriminate|constructor].
    + vm_compute. reflexivity.
  - vm_compute. reflexivity.
Defined.

Lemma sample_reminders_dated :
  Forall (fun o' => undated o' \/ exists first last, dated o' first last)
         sample_reminders.
Proof.
  constructor; [|constructor; [|constructor]]; right.
  - exists 1%Z, 5%Z, "1", "5". repeat split; vm_compute; reflexivity.
  - exists 1%Z, 31%Z, "1", "31". repeat split; vm_compute; reflexivity.
Defined.

Lemma X23_witness :
  reminder "House rent" "Household" "Rent" "1-5" ∈
  applicable_reminders (Content (JArr (map JObj sample_reminders))) 5.
Proof.
  apply (proj2 (X23_reminders_due_between_their_days 5 sample_reminders
                  (reminder "House rent" "Household" "Rent" "1-5")
                  sample_reminders_dated)).
  split; [apply list_elem_of_here|].
  exists 1%Z, 5%Z. split; [|lia].
  exists "1", "5". repeat split; vm_compute; reflexivity.
Defined.

Lemma X24_witness :
  load_user_configuration sample_environ = Some sample_config /\
  restricted sample_config (fun id => id) 0 = None.
Proof.
  assert (Hload : load_user_configuration sample_environ = Some sample_config).
  { vm_compute. reflexivity. }
  split; [exact Hload|].
  exact (proj1 (proj2 (X24_allowed_ids_come_from_the_environment Z (fun id => id)
                         sample_environ sample_config Hload))).
Defined.

Lemma X25_witness :
  load_user_configuration uneven_environ = Some (mkUserConfig [] false []) /\
  forall id, restricted (mkUserConfig [] false []) (fun id => id) id = None.
Proof.
  assert (Hload : load_user_configuration uneven_environ =
                  Some (mkUserConfig [] false [])).
  { vm_compute. reflexivity. }
  split; [exact Hload|].
  apply (X25_mismatched_lists_allow_nobody Z (fun id => id) uneven_environ
           (mkUserConfig [] false []) Hload eq_refl).
  right. right. vm_compute. discriminate.
Defined.

Lemma X26_witness :
  exists test_user_id,
    py_int (env_get local_environ "LOCAL_TEST_USER_ID" "") = Some test_user_id /\
    users (mkUserConfig [mkUser 7 "Test User"] true [7%Z]) =
      [mkUser test_user_id
         (env_get local_environ "LOCAL_TEST_USER_NAME" "Test User")] /\
    forall id, restricted (mkUserConfig [mkUser 7 "Test User"] true [7%Z])
                 (fun id => id) id =
               if bool_decide (id = test_user_id /\ id <> 0%Z)
               then Some id else None.
Proof.
  apply (X26_local_test_user_replaces_the_others Z (fun id => id) local_environ
           (mkUserConfig [mkUser 7 "Test User"] true [7%Z])).
  - vm_compute. reflexivity.
  - reflexivity.
  - vm_compute. discriminate.
Defined.

Lemma X27_witness :
  load_user_configuration
    (fun key => if String.eqb key "ALLOWED_USER_IDS" then Some "101,abc"
                else if String.eqb key "ALLOWED_USER_NAMES" then Some "Ann,Bob"
                else None) = None.
Proof.
  apply (X27_id_that_is_no_integer _ "abc").
  - vm_compute. discriminate.
  - vm_compute. discriminate.
  - vm_compute. apply list_elem_of_further, list_elem_of_here.
  - vm_compute. reflexivity.
Defined.
